(** * Workspace Sync Coordinator: the dashboard, the content viewer and the
    coordinator contract

  The development embeds the React pages under [frontend/src/pages]
  ([ContentViewer.jsx], [Dashboard.jsx]) as state-passing programs and
  states the properties of the sync coordinator over them.  The
  coordinator's server side is not among the sources; the part of it the
  properties speak about is modelled from the specification in
  [Module Coordinator] and marked as such. *)

From Stdlib Require Import String Ascii List Bool Arith ZArith Lia.
From stdpp Require Import base gmap strings list fin_maps pretty.

Local Open Scope string_scope.

(* ===================================================================== *)
(** ** JavaScript strings *)
(* ===================================================================== *)

(** The text that goes through [toLowerCase] and [includes] is carried as
    a sequence of code units over a repertoire on which the Unicode case
    conversion is tabulated here in full: the code units U+0000 to U+00FF
    (Basic Latin and Latin-1 Supplement) and the three sigmas of the Greek
    alphabet.  On this repertoire [String.prototype.toLowerCase] is the
    Unicode default case conversion below: the lower-case mappings of
    UnicodeData and the one context-sensitive rule of SpecialCasing that is
    not tied to a language, Final_Sigma. *)
Module JsString.

Inductive char : Type :=
| Latin (a : ascii)
| CapitalSigma
| SmallSigma
| FinalSigma.

Abbreviation text := (list char).

(** The text whose code units are the characters of an ASCII literal. *)
Definition ofString (s : string) : text := map Latin (list_ascii_of_string s).

Definition char_eqb (a b : char) : bool :=
  match a, b with
  | Latin x, Latin y => Ascii.eqb x y
  | CapitalSigma, CapitalSigma => true
  | SmallSigma, SmallSigma => true
  | FinalSigma, FinalSigma => true
  | _, _ => false
  end.

(** The code units below U+0100 with a lower-case mapping: A to Z,
    U+00C0 to U+00D6 and U+00D8 to U+00DE; each maps 32 places up. *)
Definition isUpper (a : ascii) : bool :=
  let n := nat_of_ascii a in
  (((65 <=? n) && (n <=? 90)) || ((192 <=? n) && (n <=? 214))
   || ((216 <=? n) && (n <=? 222)))%nat.

(** The lower-case mapping of one code unit out of context. *)
Definition lowerChar (c : char) : char :=
  match c with
  | Latin a => if isUpper a then Latin (ascii_of_nat (nat_of_ascii a + 32)) else c
  | CapitalSigma => SmallSigma
  | SmallSigma => SmallSigma
  | FinalSigma => FinalSigma
  end.

(** The property Cased: the letters with a case, lower or upper. *)
Definition cased (c : char) : bool :=
  match c with
  | Latin a =>
      let n := nat_of_ascii a in
      (((65 <=? n) && (n <=? 90)) || ((97 <=? n) && (n <=? 122))
       || (n =? 170) || (n =? 181) || (n =? 186)
       || ((192 <=? n) && (n <=? 214)) || ((216 <=? n) && (n <=? 246))
       || ((248 <=? n) && (n <=? 255)))%nat
  | CapitalSigma | SmallSigma | FinalSigma => true
  end.

(** The property Case_Ignorable: apostrophe, full stop, colon, circumflex,
    grave, diaeresis, soft hyphen, macron, acute, middle dot, cedilla. *)
Definition caseIgnorable (c : char) : bool :=
  match c with
  | Latin a =>
      let n := nat_of_ascii a in
      ((n =? 39) || (n =? 46) || (n =? 58) || (n =? 94) || (n =? 96)
       || (n =? 168) || (n =? 173) || (n =? 175) || (n =? 180) || (n =? 183)
       || (n =? 184))%nat
  | CapitalSigma | SmallSigma | FinalSigma => false
  end.

(** The text starts with case-ignorable code units and then a cased
    letter. *)
Fixpoint followedByCased (s : text) : bool :=
  match s with
  | [] => false
  | c :: r => if caseIgnorable c then followedByCased r else cased c
  end.

(** The conversion of [s] when [before] tells whether [s] follows a cased
    letter and then case-ignorable code units only.  A capital sigma in
    that position which no cased letter follows is a final sigma. *)
Fixpoint lowerFrom (before : bool) (s : text) : text :=
  match s with
  | [] => []
  | c :: r =>
      match c with
      | CapitalSigma =>
          if before && negb (followedByCased r) then FinalSigma else SmallSigma
      | _ => lowerChar c
      end :: lowerFrom (if caseIgnorable c then before else cased c) r
  end.

(** [s.toLowerCase()] *)
Definition toLowerCase (s : text) : text := lowerFrom false s.

(** [s.startsWith(q)] *)
Fixpoint startsWith (s q : text) : bool :=
  match q, s with
  | [], _ => true
  | _ :: _, [] => false
  | b :: q', a :: s' => char_eqb a b && startsWith s' q'
  end.

(** [s.includes(q)]: [q] occurs in [s] at some index. *)
Fixpoint includes (s q : text) : bool :=
  startsWith s q ||
  match s with
  | [] => false
  | _ :: s' => includes s' q
  end.

(** A string is truthy when it is not empty. *)
Definition nonEmpty (s : text) : bool :=
  match s with
  | [] => false
  | _ :: _ => true
  end.


End JsString.

(* ===================================================================== *)
(** ** JavaScript values and objects *)
(* ===================================================================== *)

Module Js.

Inductive value : Type :=
| Undefined
| Null
| Bool (b : bool)
| Num (n : Z)
| Str (s : string).

(** [a === b] on primitive values. *)
Definition strictEq (a b : value) : bool :=
  match a, b with
  | Undefined, Undefined => true
  | Null, Null => true
  | Bool x, Bool y => Bool.eqb x y
  | Num x, Num y => Z.eqb x y
  | Str x, Str y => String.eqb x y
  | _, _ => false
  end.

(** A plain object used as a record of named properties. *)
Abbreviation object := (gmap string value).

(** [o.k]: reading a property that is absent gives [undefined]. *)
Definition getProp (o : object) (k : string) : value :=
  default Undefined (o !! k).

(** Settled state of a promise. *)
Inductive outcome (A : Type) : Type :=
| Resolved (a : A)
| Rejected (e : string).
Arguments Resolved {A} a.
Arguments Rejected {A} e.

End Js.

(* ===================================================================== *)
(** ** ContentViewer.jsx *)
(* ===================================================================== *)

Module ContentViewer.
Import JsString.

(** An entry of the array answered by [GET /notion/content]. *)
Record ContentItem : Type := {
  id : string;
  item_type : string;
  title : text;
  url : option string;
  content : text;
  last_synced : string
}.

(** The arrow function passed to [content.filter]. *)
Definition matchesQuery (searchQuery : text) (item : ContentItem) : bool :=
  includes (toLowerCase (title item)) (toLowerCase searchQuery) ||
  includes (toLowerCase (content item)) (toLowerCase searchQuery).

(** [const filteredContent = content.filter(item => ...)], as a value. *)
Definition filteredContent (content : list ContentItem) (searchQuery : text)
  : list ContentItem :=
  List.filter (matchesQuery searchQuery) content.

(** *** What the specification asks of [search]

    The words of section 4.3, written down without the code's detour
    through [toLowerCase]: two characters of the Latin-1 range are the same
    letter when they are equal or one is a capital letter, unaccented or
    accented, and the other the small letter 32 code units after it; [t]
    contains [q] case-insensitively when some stretch of [t] spells [q]
    letter by letter. *)
Definition capitalLetter (n : nat) : bool :=
  ((Nat.leb 65 n) && (Nat.leb n 90))
  || ((Nat.leb 192 n) && (Nat.leb n 222) && negb (Nat.eqb n 215)).

Definition sameLetter (a b : char) : bool :=
  match a, b with
  | Latin x, Latin y =>
      let m := nat_of_ascii x in
      let n := nat_of_ascii y in
      Nat.eqb m n
      || (capitalLetter m && Nat.eqb n (m + 32))
      || (capitalLetter n && Nat.eqb m (n + 32))
  | CapitalSigma, CapitalSigma => true
  | SmallSigma, SmallSigma => true
  | FinalSigma, FinalSigma => true
  | _, _ => false
  end.

Fixpoint equalIgnoringCase (a b : text) : bool :=
  match a, b with
  | [], [] => true
  | x :: a', y :: b' => sameLetter x y && equalIgnoringCase a' b'
  | _, _ => false
  end.



(** *** The array store

    Arrays are objects: [Array.prototype.filter] leaves its receiver alone
    and answers a freshly allocated array. *)
Definition loc := nat.

Record Heap : Type := {
  cells : gmap loc (list ContentItem);
  next : loc
}.

Definition alloc (a : list ContentItem) (h : Heap) : loc * Heap :=
  (next h, {| cells := <[next h := a]> (cells h); next := S (next h) |}).

(** [arr.filter(p)]; reading through a dangling reference raises. *)
Definition Array_filter (arr : loc) (p : ContentItem -> bool) (h : Heap)
  : option (loc * Heap) :=
  match cells h !! arr with
  | Some a => Some (alloc (List.filter p a) h)
  | None => None
  end.

(** The component's [useState] cells; the [content] cell holds a reference
    to the array received from the backend. *)
Record State : Type := {
  st_content : loc;
  loading : bool;
  searchQuery : text;
  selectedItem : option ContentItem
}.

(** One evaluation of the [filteredContent] binding during a render. *)
Definition evalFilteredContent (s : State) (h : Heap) : option (loc * Heap) :=
  Array_filter (st_content s) (matchesQuery (searchQuery s)) h.

(** An allocated reference points below the allocation pointer. *)
Definition wf (h : Heap) : Prop :=
  forall l, is_Some (cells h !! l) -> (l < next h)%nat.

End ContentViewer.

(* ===================================================================== *)
(** ** Dashboard.jsx *)
(* ===================================================================== *)

Module Dashboard.
Import Js.

(** An entry of the array answered by [GET /notion/workspace]. *)
Record WorkspaceItem : Type := {
  id : string;
  item_type : string;
  title : string;
  icon : option string;
  synced : bool
}.

(** [{ ...item, synced: v }] *)
Definition withSynced (item : WorkspaceItem) (v : bool) : WorkspaceItem :=
  {| id := id item; item_type := item_type item; title := title item;
     icon := icon item; synced := v |}.

(** The component's [useState] cells. *)
Record State : Type := {
  items : list WorkspaceItem;
  loading : bool;
  syncing : bool;
  status : object;
  filter : string
}.

(** The values given to [useState] on the first render. *)
Definition initialState : State :=
  {| items := []; loading := true; syncing := false; status := ∅;
     filter := "all" |}.

(** *** What a handler can do to the outside *)

Inductive Request : Type :=
| GetWorkspace
| GetStatus
| PostToggleSync (item_id item_type : string) (enabled : bool)
| PostSync.

Inductive Effect : Type :=
| Http (r : Request)
| ToastSuccess (msg : string)
| ToastError (msg : string)
| ConsoleError (msg err : string)
| Navigate (path : string).

(** How the backend settles each request of one handler run, and, for the
    two requests [fetchData] sends together, which of them settles
    first. *)
Record Network : Type := {
  workspaceRes : outcome (list WorkspaceItem);
  statusRes : outcome object;
  statusFirst : bool;
  toggleRes : string -> string -> bool -> outcome unit;
  syncRes : outcome object
}.

Record World : Type := {
  ui : State;
  log : list Effect
}.

(** *** Async functions: state, effect log and rejection *)

Definition Async (A : Type) : Type := Network -> World -> outcome A * World.

#[global] Instance Async_ret : MRet Async :=
  fun A (a : A) _ w => (Resolved a, w).

#[global] Instance Async_bind : MBind Async :=
  fun A B (k : A -> Async B) (m : Async A) net w =>
    match m net w with
    | (Resolved a, w1) => k a net w1
    | (Rejected e, w1) => (Rejected e, w1)
    end.

(** [try { body } catch (error) { handler error }] *)
Definition tryCatch {A} (body : Async A) (handler : string -> Async A) : Async A :=
  fun net w =>
    match body net w with
    | (Resolved a, w1) => (Resolved a, w1)
    | (Rejected e, w1) => handler e net w1
    end.

(** [try { body } catch (error) { handler error } finally { fin }] *)
Definition tryCatchFinally {A} (body : Async A) (handler : string -> Async A)
    (fin : Async unit) : Async A :=
  fun net w =>
    let '(r, w1) := tryCatch body handler net w in
    match fin net w1 with
    | (Resolved _, w2) => (r, w2)
    | (Rejected e, w2) => (Rejected e, w2)
    end.

Definition emit (e : Effect) : Async unit :=
  fun _ w => (Resolved tt, {| ui := ui w; log := (log w ++ [e])%list |}).

Definition update (f : State -> State) : Async unit :=
  fun _ w => (Resolved tt, {| ui := f (ui w); log := log w |}).

Definition request {A} (r : Request) (res : Network -> outcome A) : Async A :=
  fun net w => (res net, {| ui := ui w; log := (log w ++ [Http r])%list |}).

(** [Promise.all([a, b])]: both requests are issued; the result rejects as
    soon as one of them does, with the rejection that settles first,
    [bFirst] telling whether that is the one of [b]. *)
Definition Promise_all2 {A B} (a : Async A) (b : Async B) (bFirst : Network -> bool)
    : Async (A * B) :=
  fun net w =>
    let '(ra, w1) := a net w in
    let '(rb, w2) := b net w1 in
    (match ra, rb with
     | Resolved x, Resolved y => Resolved (x, y)
     | Rejected e, Resolved _ => Rejected e
     | Resolved _, Rejected e => Rejected e
     | Rejected ea, Rejected eb => Rejected (if bFirst net then eb else ea)
     end, w2).

(** The state setters. *)
Definition setItems (v : list WorkspaceItem) : Async unit :=
  update (fun s => {| items := v; loading := loading s; syncing := syncing s;
                      status := status s; filter := filter s |}).
Definition setLoading (v : bool) : Async unit :=
  update (fun s => {| items := items s; loading := v; syncing := syncing s;
                      status := status s; filter := filter s |}).
Definition setSyncing (v : bool) : Async unit :=
  update (fun s => {| items := items s; loading := loading s; syncing := v;
                      status := status s; filter := filter s |}).
Definition setStatus (v : object) : Async unit :=
  update (fun s => {| items := items s; loading := loading s; syncing := syncing s;
                      status := v; filter := filter s |}).

(** [${v}] inside a template literal. *)
Definition toString (v : value) : string :=
  match v with
  | Undefined => "undefined"
  | Null => "null"
  | Bool true => "true"
  | Bool false => "false"
  | Num n => pretty n
  | Str s => s
  end.

(** *** The handlers *)

Definition fetchData : Async unit :=
  setLoading true ;;
  tryCatchFinally
    (res ← Promise_all2 (request GetWorkspace workspaceRes)
                        (request GetStatus statusRes) statusFirst ;
     setItems (fst res) ;;
     setStatus (snd res))
    (fun error =>
       emit (ConsoleError "Error fetching data:" error) ;;
       emit (ToastError "Failed to load workspace data"))
    (setLoading false).

(** The handler closes over the [items] of the render [r] it was created
    in; [setItems] then replaces the current list with the mapped copy of
    that one. *)
Definition handleToggleSync (r : State) (itemId itemType : string)
    (currentState : bool) : Async unit :=
  tryCatch
    (request (PostToggleSync itemId itemType (negb currentState))
             (fun net => toggleRes net itemId itemType (negb currentState)) ;;
     setItems (map (fun item =>
                      if String.eqb (id item) itemId
                      then withSynced item (negb currentState)
                      else item)
                   (items r)) ;;
     emit (ToastSuccess (if negb currentState then "Added to sync"
                         else "Removed from sync")))
    (fun error =>
       emit (ConsoleError "Error toggling sync:" error) ;;
       emit (ToastError "Failed to update sync preference")).

Definition handleManualSync : Async unit :=
  setSyncing true ;;
  tryCatchFinally
    (response ← request PostSync syncRes ;
     emit (ToastSuccess ("Synced " +:+ toString (getProp response "synced_count")
                         +:+ " items successfully")) ;;
     fetchData)
    (fun error =>
       emit (ConsoleError "Error syncing:" error) ;;
       emit (ToastError "Sync failed. Please try again."))
    (setSyncing false).

(** *** Values derived during a render *)

Definition syncedItems (r : State) : list WorkspaceItem :=
  List.filter synced (items r).

(** [disabled={syncing || syncedItems.length === 0}] *)
Definition syncNowDisabled (r : State) : bool :=
  syncing r || (length (syncedItems r) =? 0)%nat.

(** [disabled={status.total_synced === 0}] *)
Definition viewContentDisabled (r : State) : bool :=
  strictEq (getProp (status r) "total_synced") (Num 0).

(** Modelled from the spec: the [Button] component ([@/components/ui/button])
    is not among the sources.  It is taken to behave as the HTML button it
    wraps, which is the reading the properties of the two controls rely on:
    a disabled control does not run its [onClick]. *)
Definition Button_click (disabled : bool) (onClick : Async unit) : Async unit :=
  if disabled then mret tt else onClick.

(** A click on the control with [data-testid="sync-now-button"]. *)
Definition clickSyncNow (r : State) : Async unit :=
  Button_click (syncNowDisabled r) handleManualSync.

(** A click on the control with [data-testid="view-content-button"]. *)
Definition clickViewContent (r : State) : Async unit :=
  Button_click (viewContentDisabled r) (emit (Navigate "/content")).

(** A change of the switch with [data-testid="toggle-sync-<id>"]. *)
Definition changeToggle (r : State) (item : WorkspaceItem) : Async unit :=
  handleToggleSync r (id item) (item_type item) (synced item).

(** [new] is [old] up to its [synced] flag, and is [old] itself when [old]
    is not the item [itemId]. *)
Definition sameButSynced (itemId : string) (old new : WorkspaceItem) : Prop :=
  id new = id old /\ item_type new = item_type old /\ title new = title old
  /\ icon new = icon old /\ (id old <> itemId -> new = old).

(** The requests among the effects of a run. *)
Definition httpRequests (l : list Effect) : list Request :=
  omap (fun e => match e with Http r => Some r | _ => None end) l.

End Dashboard.

(* ===================================================================== *)
(** ** The coordinator behind the endpoints *)
(* ===================================================================== *)

(** The server side that answers [POST /notion/toggle-sync] and
    [POST /notion/sync] is not among the sources: the pages above only call
    it.  This module follows the specification's sections 3, 4.1 and 5. *)
Module Coordinator.

(** Modelled from the spec: the [itemType] of a WorkspaceItem (section 3);
    the coordinator's source is missing. *)
Inductive ItemType : Type := page | database.

(** Modelled from the spec: the error taxonomy of section 7; the
    coordinator's source is missing. *)
Inductive Error : Type :=
| GatewayUnavailable
| Unauthorized
| PersistenceError
| SyncInProgress.

(** Modelled from the spec: the trigger argument of [runSyncPass]
    (section 4.1); the coordinator's source is missing. *)
Inductive Trigger : Type := manual | scheduled.

(** Modelled from the spec: a SyncPreference row (section 3), stored under
    its [itemId]; the preference store's source is missing. *)
Record SyncPreference : Type := {
  pref_itemType : ItemType;
  enabled : bool
}.

(** Modelled from the spec: what [fetchItemContent] answers (section 6); the
    gateway's source is missing. *)
Record Fetched : Type := {
  f_title : string;
  f_url : option string;
  f_content : string
}.

(** Modelled from the spec: a SyncedContent entry (section 3), stored under
    its [itemId]; the content cache's source is missing. *)
Record SyncedContent : Type := {
  sc_itemType : ItemType;
  sc_title : string;
  sc_url : option string;
  sc_content : string;
  lastSynced : nat
}.

(** Modelled from the spec: the progress of the pass in flight, the items
    still to fetch and the two tallies of section 5; the coordinator's
    source is missing. *)
Record Pass : Type := {
  pending : list (string * ItemType);
  syncedCount : nat;
  failedCount : nat
}.

(** Modelled from the spec: the two stores owned by the coordinator and its
    single in-flight guard (sections 3 and 5); the coordinator's source is
    missing. *)
Record State : Type := {
  prefs : gmap string SyncPreference;
  cache : gmap string SyncedContent;
  inFlight : option Pass
}.

(** Modelled from the spec: the value returned by [runSyncPass], step 5 of
    section 4.1; the coordinator's source is missing. *)
Record PassResult : Type := {
  r_syncedCount : nat;
  r_failedCount : nat;
  lastSyncTimestamp : option nat
}.

(** Modelled from the spec: what a caller of the coordinator is answered;
    the coordinator's source is missing. *)
Inductive Reply : Type :=
| Ack
| Rejected (e : Error)
| Completed (r : PassResult).

(** Modelled from the spec: what can happen to the coordinator, a call of
    one of its operations or the gateway answering the fetch of the item at
    the head of the pass in flight; the coordinator's source is missing. *)
Inductive Event : Type :=
| SetPreference (itemId : string) (itemType : ItemType) (on : bool)
| RunSyncPass (trigger : Trigger)
| FetchReturned (res : Error + Fetched) (now : nat).

(** Modelled from the spec: [setPreference(itemId, itemType, enabled)]
    upserts a SyncPreference row and has no other effect (section 4.1); the
    coordinator's source is missing. *)
Definition setPreference (itemId : string) (itemType : ItemType) (on : bool)
    (c : State) : State :=
  {| prefs := <[itemId := {| pref_itemType := itemType; enabled := on |}]> (prefs c);
     cache := cache c;
     inFlight := inFlight c |}.

(** Modelled from the spec: step 1 of [runSyncPass], all SyncPreference rows
    with [enabled == true]; the coordinator's source is missing. *)
Definition selected (c : State) : list (string * ItemType) :=
  (fun kp => (fst kp, pref_itemType (snd kp))) <$>
  List.filter (fun kp => enabled (snd kp)) (map_to_list (prefs c)).

(** Modelled from the spec: [lastSyncTimestamp], derived from a scan of the
    cache (sections 3 and 9); the coordinator's source is missing. *)
Definition latestSync (m : gmap string SyncedContent) : option nat :=
  map_fold (fun _ sc acc =>
              Some (match acc with
                    | Some t => Nat.max t (lastSynced sc)
                    | None => lastSynced sc
                    end)) None m.

(** Modelled from the spec: the guard is taken and the selected rows are
    read; the coordinator's source is missing. *)
Definition beginPass (c : State) : State :=
  {| prefs := prefs c;
     cache := cache c;
     inFlight := Some {| pending := selected c; syncedCount := 0; failedCount := 0 |} |}.

(** Modelled from the spec: the SyncedContent upserted on a fetch success,
    fresh content and [lastSynced = now()] (step 4 of [runSyncPass]); the
    coordinator's source is missing. *)
Definition syncedEntry (itemType : ItemType) (f : Fetched) (now : nat)
    : SyncedContent :=
  {| sc_itemType := itemType; sc_title := f_title f; sc_url := f_url f;
     sc_content := f_content f; lastSynced := now |}.

(** Modelled from the spec: steps 3 and 4 of [runSyncPass] for one item, a
    failure is counted and the cache left alone, a success upserts the
    entry with [lastSynced = now()]; the coordinator's source is missing. *)
Definition fetchStep (res : Error + Fetched) (now : nat) (c : State) : State :=
  match inFlight c with
  | Some p =>
      match pending p with
      | (itemId, itemType) :: rest =>
          match res with
          | inr f =>
              {| prefs := prefs c;
                 cache := <[itemId := syncedEntry itemType f now]> (cache c);
                 inFlight := Some {| pending := rest;
                                     syncedCount := S (syncedCount p);
                                     failedCount := failedCount p |} |}
          | inl _ =>
              {| prefs := prefs c;
                 cache := cache c;
                 inFlight := Some {| pending := rest;
                                     syncedCount := syncedCount p;
                                     failedCount := S (failedCount p) |} |}
          end
      | [] => c
      end
  | None => c
  end.

(** Modelled from the spec: step 5 of [runSyncPass], once no item is left
    the guard is released and the tallies are returned; the coordinator's
    source is missing. *)
Definition settle (c : State) : State * option Reply :=
  match inFlight c with
  | Some p =>
      match pending p with
      | [] =>
          ({| prefs := prefs c; cache := cache c; inFlight := None |},
           Some (Completed {| r_syncedCount := syncedCount p;
                              r_failedCount := failedCount p;
                              lastSyncTimestamp := latestSync (cache c) |}))
      | _ :: _ => (c, None)
      end
  | None => (c, None)
  end.

(** Modelled from the spec: the coordinator's reaction to one event; a pass
    requested while one is in flight is rejected with [SyncInProgress] and
    not queued (section 4.1); the coordinator's source is missing. *)
Definition step (c : State) (ev : Event) : State * option Reply :=
  match ev with
  | SetPreference itemId itemType on =>
      (setPreference itemId itemType on c, Some Ack)
  | RunSyncPass _ =>
      match inFlight c with
      | Some _ => (c, Some (Rejected SyncInProgress))
      | None => settle (beginPass c)
      end
  | FetchReturned res now => settle (fetchStep res now c)
  end.

(** Modelled from the spec: a run of the coordinator over a sequence of
    events, with the replies it gave; the coordinator's source is missing. *)
Fixpoint run (c : State) (evs : list Event) : State * list Reply :=
  match evs with
  | [] => (c, [])
  | ev :: evs' =>
      let '(c1, r) := step c ev in
      let '(c2, rs) := run c1 evs' in
      (c2, (option_list r ++ rs)%list)
  end.

(** Modelled from the spec: [runSyncPass(trigger)] run to its end with no
    other call in between, the gateway answering the fetch of [itemId] with
    [gateway itemId itemType] at time [now]; the coordinator's source is
    missing. *)
Definition runSyncPass (trigger : Trigger)
    (gateway : string -> ItemType -> Error + Fetched) (now : nat)
    (c : State) : State * option Reply :=
  match inFlight c with
  | Some _ => (c, Some (Rejected SyncInProgress))
  | None =>
      fold_left (fun cr it => step (fst cr) (FetchReturned (gateway (fst it) (snd it)) now))
                (selected c) (step c (RunSyncPass trigger))
  end.

(** Modelled from the spec: the gateway failed for this item; the
    coordinator's source is missing. *)
Definition fetchFails (gateway : string -> ItemType -> Error + Fetched)
    (it : string * ItemType) : bool :=
  match gateway (fst it) (snd it) with inl _ => true | inr _ => false end.

End Coordinator.

(* ===================================================================== *)
(** ** Sample data *)
(* ===================================================================== *)

Module Sample.

(** Two cached entries, as the viewer receives them. *)
Definition notes : ContentViewer.ContentItem :=
  {| ContentViewer.id := "a"; ContentViewer.item_type := "page";
     ContentViewer.title := JsString.ofString "Notes"; ContentViewer.url := None;
     ContentViewer.content := JsString.ofString "Buy MILK";
     ContentViewer.last_synced := "2025-10-19" |}.

Definition tasks : ContentViewer.ContentItem :=
  {| ContentViewer.id := "b"; ContentViewer.item_type := "database";
     ContentViewer.title := JsString.ofString "Tasks"; ContentViewer.url := None;
     ContentViewer.content := []; ContentViewer.last_synced := "2025-10-19" |}.

(** An entry titled CAF and the capital E with acute accent, U+00C9. *)
Definition cafe : ContentViewer.ContentItem :=
  {| ContentViewer.id := "c"; ContentViewer.item_type := "page";
     ContentViewer.title :=
       (JsString.ofString "CAF" ++ [JsString.Latin (ascii_of_nat 201)])%list;
     ContentViewer.url := None; ContentViewer.content := [];
     ContentViewer.last_synced := "2025-10-19" |}.


Definition viewerHeap : ContentViewer.Heap :=
  {| ContentViewer.cells := {[ 0 := [notes; tasks] ]}; ContentViewer.next := 1 |}.

Definition viewerState : ContentViewer.State :=
  {| ContentViewer.st_content := 0; ContentViewer.loading := false;
     ContentViewer.searchQuery := JsString.ofString "milk";
     ContentViewer.selectedItem := None |}.

(** A dashboard showing two items, the first one selected. *)
Definition itemA : Dashboard.WorkspaceItem :=
  {| Dashboard.id := "a"; Dashboard.item_type := "page"; Dashboard.title := "Notes";
     Dashboard.icon := None; Dashboard.synced := true |}.

Definition itemB : Dashboard.WorkspaceItem :=
  {| Dashboard.id := "b"; Dashboard.item_type := "database"; Dashboard.title := "Tasks";
     Dashboard.icon := Some "T"; Dashboard.synced := false |}.

Definition dashboard : Dashboard.World :=
  {| Dashboard.ui := {| Dashboard.items := [itemA; itemB]; Dashboard.loading := false;
                        Dashboard.syncing := false;
                        Dashboard.status := {[ "total_synced" := Js.Num 1 ]};
                        Dashboard.filter := "all" |};
     Dashboard.log := [] |}.

(** The same dashboard while a sync is in flight. *)
Definition dashboardSyncing : Dashboard.State :=
  {| Dashboard.items := [itemA; itemB]; Dashboard.loading := false;
     Dashboard.syncing := true; Dashboard.status := ∅; Dashboard.filter := "all" |}.

(** A backend that is down, the status request failing before the
    workspace request, and a backend that answers. *)
Definition offline : Dashboard.Network :=
  {| Dashboard.workspaceRes := Js.Rejected "Network Error";
     Dashboard.statusRes := Js.Rejected "Request failed with status code 500";
     Dashboard.statusFirst := true;
     Dashboard.toggleRes := fun _ _ _ => Js.Rejected "Network Error";
     Dashboard.syncRes := Js.Rejected "Network Error" |}.

Definition online : Dashboard.Network :=
  {| Dashboard.workspaceRes := Js.Resolved [itemA; itemB];
     Dashboard.statusRes := Js.Resolved {[ "total_synced" := Js.Num 1 ]};
     Dashboard.statusFirst := false;
     Dashboard.toggleRes := fun _ _ _ => Js.Resolved tt;
     Dashboard.syncRes := Js.Resolved {[ "synced_count" := Js.Num 1 ]} |}.

(** A coordinator with three selected items and one that is not, and a
    gateway that fails for the item ["b"] only. *)
Definition threeSelected : Coordinator.State :=
  Coordinator.setPreference "d" Coordinator.database false
    (Coordinator.setPreference "c" Coordinator.page true
       (Coordinator.setPreference "b" Coordinator.page true
          (Coordinator.setPreference "a" Coordinator.page true
             {| Coordinator.prefs := ∅; Coordinator.cache := ∅;
                Coordinator.inFlight := None |}))).

Definition failsOnB (itemId : string) (itemType : Coordinator.ItemType)
    : Coordinator.Error + Coordinator.Fetched :=
  if String.eqb itemId "b" then inl Coordinator.GatewayUnavailable
  else inr {| Coordinator.f_title := itemId; Coordinator.f_url := None;
              Coordinator.f_content := "text" |}.

(** The coordinator right after a pass was accepted. *)
Definition midPass : Coordinator.State :=
  fst (Coordinator.step threeSelected (Coordinator.RunSyncPass Coordinator.manual)).

End Sample.

(* ===================================================================== *)
(** ** More of JavaScript: truthiness and integral numbers *)
(* ===================================================================== *)

Module JsOps.
Import Js.

(** [!!v] *)
Definition truthy (v : value) : bool :=
  match v with
  | Undefined => false
  | Null => false
  | Bool b => b
  | Num n => negb (n =? 0)%Z
  | Str s => negb (String.eqb s "")
  end.

(** [a || b] on values. *)
Definition orElse (a b : value) : value := if truthy a then a else b.

(** The numbers of the time arithmetic: an integer, or [NaN] ([None]).
    For the millisecond counts of dates the floating-point operations
    below are exact. *)
Definition number : Type := option Z.

(** [a - b] *)
Definition sub (a b : number) : number :=
  match a, b with
  | Some x, Some y => Some (x - y)%Z
  | _, _ => None
  end.

(** [Math.floor(a / d)] for a positive integer literal [d]. *)
Definition floorDiv (a : number) (d : Z) : number :=
  match a with
  | Some x => Some (x / d)%Z
  | None => None
  end.

(** [a < b] and [a > b] against an integer literal; false on [NaN]. *)
Definition lt (a : number) (b : Z) : bool :=
  match a with Some x => (x <? b)%Z | None => false end.

Definition gt (a : number) (b : Z) : bool :=
  match a with Some x => (b <? x)%Z | None => false end.

(** [${a}] *)
Definition numToString (a : number) : string :=
  match a with Some x => pretty x | None => "NaN" end.

End JsOps.

(* ===================================================================== *)
(** ** Dashboard.jsx: the values of a render and the events of the page *)
(* ===================================================================== *)

Module DashboardRender.
Import Js JsOps Dashboard.

(** [filter === "all" ? items : items.filter(item => item.item_type === filter)] *)
Definition filteredItems (r : State) : list WorkspaceItem :=
  if String.eqb (filter r) "all" then items r
  else List.filter (fun item => String.eqb (item_type item) (filter r)) (items r).

(** [formatLastSync(isoString)].  The clock and the parsing of dates are the
    platform's: [now] is [new Date().getTime()] and [getTime v] is
    [new Date(v).getTime()], [NaN] for an invalid date. *)
Definition formatLastSync (getTime : value -> number) (now : Z)
    (isoString : value) : string :=
  if negb (truthy isoString) then "Never" else
  let date := getTime isoString in
  let diffMs := sub (Some now) date in
  let diffMins := floorDiv diffMs 60000 in
  if lt diffMins 1 then "Just now" else
  if lt diffMins 60 then numToString diffMins +:+ " min ago" else
  let diffHours := floorDiv diffMins 60 in
  if lt diffHours 24
  then numToString diffHours +:+ " hour" +:+ (if gt diffHours 1 then "s" else "") +:+ " ago"
  else
  let diffDays := floorDiv diffHours 24 in
  numToString diffDays +:+ " day" +:+ (if gt diffDays 1 then "s" else "") +:+ " ago".

(** [{status.last_sync && (<p>Last sync: {formatLastSync(status.last_sync)}</p>)}]:
    the text drawn under the title.  A falsy [last_sync] is drawn as
    nothing, except the number 0, which React draws as "0". *)
Definition lastSyncLine (getTime : value -> number) (now : Z) (r : State)
    : option string :=
  let v := getProp (status r) "last_sync" in
  if truthy v then Some ("Last sync: " +:+ formatLastSync getTime now v)
  else match v with
       | Num _ => Some "0"
       | _ => None
       end.

(** [{status.total_synced || 0}] on the Readable Sources card. *)
Definition readableSources (r : State) : value :=
  orElse (getProp (status r) "total_synced") (Num 0).

(** The body of the items card. *)
Inductive ItemsCard : Type :=
| LoadingItems
| NoItemsFound
| ItemRows (rows : list WorkspaceItem).

(** [loading ? ... : items.length === 0 ? ... : items.map(...)] *)
Definition itemsCard (r : State) : ItemsCard :=
  if loading r then LoadingItems
  else if (length (items r) =? 0)%nat then NoItemsFound
  else ItemRows (items r).

(** [{syncedItems.length > 0 && (...Auto-sync enabled...)}] *)
Definition autoSyncBanner (r : State) : bool :=
  (0 <? length (syncedItems r))%nat.

(** An async function runs up to its first [await] when it is called and
    goes on when the awaited promise settles.  For [handleToggleSync] the
    first part sends the request; the second part, given the way the
    request settled, is the rest of the [try] block or the [catch]
    block, with the [items] of the render [r] that created the handler. *)
Definition toggleSent (itemId itemType : string) (currentState : bool) : Async unit :=
  emit (Http (PostToggleSync itemId itemType (negb currentState))).

Definition toggleSettled (r : State) (itemId itemType : string) (currentState : bool)
    (res : outcome unit) : Async unit :=
  match res with
  | Resolved _ =>
      setItems (map (fun item =>
                       if String.eqb (id item) itemId
                       then withSynced item (negb currentState)
                       else item)
                    (items r)) ;;
      emit (ToastSuccess (if negb currentState then "Added to sync"
                          else "Removed from sync"))
  | Rejected error =>
      emit (ConsoleError "Error toggling sync:" error) ;;
      emit (ToastError "Failed to update sync preference")
  end.

(** The switch of the row [a] and then the switch of the row [b] are
    changed on the same render [r], the second before the first request
    has returned; [aFirst] tells which of the two answers arrives first. *)
Definition overlappingToggles (r : State) (a b : WorkspaceItem) (aFirst : bool)
    : Async unit :=
  fun net w =>
    let settleA :=
      toggleSettled r (id a) (item_type a) (synced a)
        (toggleRes net (id a) (item_type a) (negb (synced a))) in
    let settleB :=
      toggleSettled r (id b) (item_type b) (synced b)
        (toggleRes net (id b) (item_type b) (negb (synced b))) in
    (toggleSent (id a) (item_type a) (synced a) ;;
     toggleSent (id b) (item_type b) (synced b) ;;
     if aFirst then settleA ;; settleB else settleB ;; settleA) net w.

(** What the user and the page life cycle can do: the mount effect
    ([useEffect(() => { fetchData() }, [])]) and the three controls, the
    switch being the one of the row at position [i], there only while the
    rows are drawn. *)
Inductive UiEvent : Type :=
| Mount
| ChangeSwitch (i : nat)
| ClickSyncNow
| ClickViewContent.

(** The handler an event runs, taken from the render of the current state. *)
Definition dispatch (ev : UiEvent) : Async unit :=
  fun net w =>
    match ev with
    | Mount => fetchData net w
    | ChangeSwitch i =>
        match itemsCard (ui w) with
        | ItemRows rows =>
            match rows !! i with
            | Some item => changeToggle (ui w) item net w
            | None => (Resolved tt, w)
            end
        | _ => (Resolved tt, w)
        end
    | ClickSyncNow => clickSyncNow (ui w) net w
    | ClickViewContent => clickViewContent (ui w) net w
    end.

(** The page before its first render. *)
Definition initialWorld : World := {| ui := initialState; log := [] |}.

(** A session: events, each with the answers of the backend during it. *)
Definition runUi (evs : list (UiEvent * Network)) (w : World) : World :=
  fold_left (fun w en => snd (dispatch (fst en) (snd en) w)) evs w.

End DashboardRender.

(* ===================================================================== *)
(** ** Handlers of the other pages: state, effects, rejection *)
(* ===================================================================== *)

Module Page.

(** What a handler does to the outside.  The error object handed to
    [console.error] is not kept. *)
Inductive Effect : Type :=
| HttpGet (url : string)
| HttpPost (url : string) (body : list (string * Js.value))
| ConsoleError (msg : string)
| SetTimeout (callback : string) (ms : Z)
| PreventDefault.

(** An async function over the state [S] that can reject with an [X]; the
    paths of the requests are relative to the [API] prefix. *)
Definition Prog (S X A : Type) : Type :=
  S -> list Effect -> (X + A) * S * list Effect.

#[global] Instance Prog_ret {S X} : MRet (Prog S X) :=
  fun A (a : A) s l => (inr a, s, l).

#[global] Instance Prog_bind {S X} : MBind (Prog S X) :=
  fun A B (k : A -> Prog S X B) (m : Prog S X A) s l =>
    match m s l with
    | (inr a, s1, l1) => k a s1 l1
    | (inl e, s1, l1) => (inl e, s1, l1)
    end.

(** [try { body } catch (error) { handler error } finally { fin }] *)
Definition tryCatchFinally {S X A} (body : Prog S X A) (handler : X -> Prog S X A)
    (fin : Prog S X unit) : Prog S X A :=
  fun s l =>
    let '(r, s1, l1) :=
      match body s l with
      | (inr a, s1, l1) => (inr a, s1, l1)
      | (inl e, s1, l1) => handler e s1 l1
      end in
    match fin s1 l1 with
    | (inr _, s2, l2) => (r, s2, l2)
    | (inl e, s2, l2) => (inl e, s2, l2)
    end.

Definition emit {S X} (e : Effect) : Prog S X unit :=
  fun s l => (inr tt, s, (l ++ [e])%list).

Definition update {S X} (f : S -> S) : Prog S X unit :=
  fun s l => (inr tt, f s, l).

(** A request and the way the backend settles it. *)
Definition request {S X A} (e : Effect) (res : X + A) : Prog S X A :=
  fun s l => (res, s, (l ++ [e])%list).

End Page.

(* ===================================================================== *)
(** ** ContentViewer.jsx: loading the content and what is shown *)
(* ===================================================================== *)

Module ContentViewerPage.
Import Js JsOps JsString ContentViewer Page.

(** The component's state cells together with the arrays they refer to. *)
Definition World : Type := State * Heap.

(** [useState([])], [useState(true)], [useState("")], [useState(null)] *)
Definition initialWorld : World :=
  ({| st_content := 0; loading := true; searchQuery := []; selectedItem := None |},
   {| cells := {[ 0 := [] ]}; next := 1 |}).

(** [setContent(response.data)]: the array of the response is new to the
    store. *)
Definition setContent (data : list ContentItem) : Prog World string unit :=
  update (fun w =>
            let '(l, h) := alloc data (snd w) in
            ({| st_content := l; loading := loading (fst w);
                searchQuery := searchQuery (fst w);
                selectedItem := selectedItem (fst w) |}, h)).

Definition setLoading (v : bool) : Prog World string unit :=
  update (fun w =>
            ({| st_content := st_content (fst w); loading := v;
                searchQuery := searchQuery (fst w);
                selectedItem := selectedItem (fst w) |}, snd w)).

Definition fetchContent (contentRes : string + list ContentItem)
    : Prog World string unit :=
  Page.tryCatchFinally
    (response ← request (HttpGet "/notion/content") contentRes ;
     setContent response)
    (fun error => emit (ConsoleError "Error fetching content:"))
    (setLoading false).

(** The array behind the [content] cell; a dangling cell reads as empty. *)
Definition contentOf (w : World) : list ContentItem :=
  default [] (cells (snd w) !! st_content (fst w)).

(** The card on the right. *)
Inductive Detail : Type :=
| SelectPrompt
| Markdown (item : ContentItem)
| NoContentAvailable (item : ContentItem).

(** [selectedItem ? (selectedItem.content ? ... : ...) : ...] *)
Definition detail (w : World) : Detail :=
  match selectedItem (fst w) with
  | Some item =>
      if nonEmpty (content item) then Markdown item else NoContentAvailable item
  | None => SelectPrompt
  end.

(** The body of the page. *)
Inductive Body : Type :=
| LoadingContent
| NoSyncedContent
| ContentGrid (rows : list ContentItem) (card : Detail).

(** [loading ? ... : content.length === 0 ? ... : (list and detail)] *)
Definition body (w : World) : Body :=
  if loading (fst w) then LoadingContent
  else if (length (contentOf w) =? 0)%nat then NoSyncedContent
  else ContentGrid (filteredContent (contentOf w) (searchQuery (fst w))) (detail w).

End ContentViewerPage.

(* ===================================================================== *)
(** ** App.js: the key check and the routes *)
(* ===================================================================== *)

Module App.
Import Js JsOps Page.

Record State : Type := {
  hasKey : value;
  loading : bool
}.

(** [useState(false)], [useState(true)] *)
Definition initialState : State := {| hasKey := Bool false; loading := true |}.

Definition setHasKey (v : value) : Prog State string unit :=
  update (fun s => {| hasKey := v; loading := loading s |}).

Definition setLoading (v : bool) : Prog State string unit :=
  update (fun s => {| hasKey := hasKey s; loading := v |}).

Definition checkStatus (statusRes : string + object) : Prog State string unit :=
  Page.tryCatchFinally
    (response ← request (HttpGet "/notion/status") statusRes ;
     setHasKey (getProp response "has_key"))
    (fun error => emit (ConsoleError "Error checking status:"))
    (setLoading false).

(** [onSetupComplete={() => setHasKey(true)}] *)
Definition onSetupComplete : Prog State string unit := setHasKey (Bool true).

(** The location, as the route table tells it apart. *)
Inductive Path : Type :=
| Root
| SetupPath
| DashboardPath
| ContentPath
| OtherPath.

Inductive Element : Type :=
| LoadingScreen
| SetupPage
| DashboardPage
| ContentViewerPage
| NavigateTo (p : Path)
| NoMatch.

(** The [<Routes>] table. *)
Definition routes (s : State) (p : Path) : Element :=
  match p with
  | Root => if truthy (hasKey s) then NavigateTo DashboardPath else NavigateTo SetupPath
  | SetupPath => SetupPage
  | DashboardPath => if truthy (hasKey s) then DashboardPage else NavigateTo SetupPath
  | ContentPath => if truthy (hasKey s) then ContentViewerPage else NavigateTo SetupPath
  | OtherPath => NoMatch
  end.

(** [if (loading) return (...Loading...); return (...routes...)] *)
Definition render (s : State) (p : Path) : Element :=
  if loading s then LoadingScreen else routes s p.

(** What is on screen once at most [fuel] redirects were followed. *)
Fixpoint settle (fuel : nat) (s : State) (p : Path) : Element :=
  match render s p with
  | NavigateTo p' =>
      match fuel with
      | O => NavigateTo p'
      | S n => settle n s p'
      end
  | e => e
  end.

End App.

(* ===================================================================== *)
(** ** Setup.jsx *)
(* ===================================================================== *)

Module Setup.
Import Js JsOps Page.

Record State : Type := {
  apiKey : string;
  loading : bool;
  error : value;
  success : bool
}.

(** [useState("")], [useState(false)], [useState("")], [useState(false)] *)
Definition initialState : State :=
  {| apiKey := ""; loading := false; error := Str ""; success := false |}.

(** What the [catch] reads of a rejection: [err.response?.data?.detail],
    [undefined] when any link of the chain is missing. *)
Record AxiosError : Type := { detail : value }.

Definition setLoading (v : bool) : Prog State AxiosError unit :=
  update (fun s => {| apiKey := apiKey s; loading := v; error := error s;
                      success := success s |}).
Definition setError (v : value) : Prog State AxiosError unit :=
  update (fun s => {| apiKey := apiKey s; loading := loading s; error := v;
                      success := success s |}).
Definition setSuccess (v : bool) : Prog State AxiosError unit :=
  update (fun s => {| apiKey := apiKey s; loading := loading s; error := error s;
                      success := v |}).

(** [handleSubmit], created by the render [r] whose [apiKey] it sends. *)
Definition handleSubmit (r : State) (saveRes : AxiosError + unit)
    : Prog State AxiosError unit :=
  emit PreventDefault ;;
  setLoading true ;;
  setError (Str "") ;;
  setSuccess false ;;
  Page.tryCatchFinally
    (request (HttpPost "/notion/save-key" [("api_key", Str (apiKey r))]) saveRes ;;
     setSuccess true ;;
     emit (SetTimeout "onSetupComplete" 1500))
    (fun err =>
       setError (orElse (detail err)
                   (Str "Failed to save API key. Please check and try again.")))
    (setLoading false).

(** [{error && (<Alert ...>)}] and [{success && (<Alert ...>)}] *)
Definition errorAlert (s : State) : bool := truthy (error s).
Definition successAlert (s : State) : bool := success s.

End Setup.

(* ===================================================================== *)
(** ** More sample data *)
(* ===================================================================== *)

Module SampleMore.

(** A clock reading and a date parser that knows one timestamp, two and a
    half hours before it. *)
Definition now : Z := 1760877000000.

Definition getTime (v : Js.value) : JsOps.number :=
  match v with
  | Js.Str s => if String.eqb s "2025-10-19T10:00:00.000Z" then Some 1760868000000%Z
                else None
  | _ => None
  end.

(** An entry synced with neither a title nor readable content. *)
Definition blank : ContentViewer.ContentItem :=
  {| ContentViewer.id := "e"; ContentViewer.item_type := "database";
     ContentViewer.title := []; ContentViewer.url := None;
     ContentViewer.content := []; ContentViewer.last_synced := "2025-10-19" |}.

End SampleMore.

(* ===================================================================== *)
(** ** Lists *)
(* ===================================================================== *)

Section ListFacts.
Context {A : Type}.

Lemma List_filter_sublist (p : A -> bool) (l : list A) :
  sublist (List.filter p l) l.
Proof.
  induction l as [|x l IH]; simpl; [constructor|].
  destruct (p x); now constructor.
Qed.


(** The entries a test keeps and the entries it drops make up the list. *)
Lemma List_filter_length_split (p : A -> bool) (l : list A) :
  length (List.filter (fun x => negb (p x)) l) + length (List.filter p l) = length l.
Proof.
  induction l as [|x l IH]; simpl; [reflexivity|].
  destruct (p x); simpl; lia.
Qed.

End ListFacts.

(* ===================================================================== *)
(** ** Properties of the string operations *)
(* ===================================================================== *)

Section StringFacts.
Import JsString.

Lemma char_eqb_eq (a b : char) : char_eqb a b = true <-> a = b.
Proof.
  destruct a as [x| | |], b as [y| | |]; cbn; try (split; [reflexivity || discriminate | reflexivity || discriminate]).
  rewrite Ascii.eqb_eq. split; congruence.
Qed.




(** Every character is one of the 256 codes. *)
Lemma ascii_enum (a : ascii) : In a (map ascii_of_nat (seq 0 256)).
Proof.
  apply in_map_iff. exists (nat_of_ascii a). split.
  - apply ascii_nat_embedding.
  - apply in_seq. pose proof (nat_ascii_bounded a). lia.
Qed.

(** The tables, compared row by row over the 256 by 256 pairs of Latin-1
    code units: two code units are the same letter exactly when they have
    the same lower-case mapping, and then they agree on Cased and on
    Case_Ignorable. *)
Lemma latin_tables (a b : ascii) :
  (ContentViewer.sameLetter (Latin a) (Latin b) = true
   <-> lowerChar (Latin a) = lowerChar (Latin b))
  /\ (ContentViewer.sameLetter (Latin a) (Latin b) = true ->
      cased (Latin a) = cased (Latin b)
      /\ caseIgnorable (Latin a) = caseIgnorable (Latin b)).
Proof.
  assert (H : forallb (fun x =>
              forallb (fun y =>
                Bool.eqb (ContentViewer.sameLetter (Latin x) (Latin y))
                         (char_eqb (lowerChar (Latin x)) (lowerChar (Latin y)))
                && (negb (ContentViewer.sameLetter (Latin x) (Latin y))
                    || (Bool.eqb (cased (Latin x)) (cased (Latin y))
                        && Bool.eqb (caseIgnorable (Latin x)) (caseIgnorable (Latin y)))))
                (map ascii_of_nat (seq 0 256)))
              (map ascii_of_nat (seq 0 256)) = true) by (vm_compute; reflexivity).
  rewrite forallb_forall in H. specialize (H a (ascii_enum a)).
  rewrite forallb_forall in H. specialize (H b (ascii_enum b)).
  apply andb_true_iff in H as [H1 H2]. apply Bool.eqb_prop in H1. split.
  - rewrite H1. apply char_eqb_eq.
  - intros Hs. rewrite Hs in H2. cbn in H2.
    apply andb_true_iff in H2 as [Hc Hi].
    split; now apply Bool.eqb_prop.
Qed.

Lemma lowerChar_idem (c : char) : lowerChar (lowerChar c) = lowerChar c.
Proof.
  destruct c as [a| | |]; try reflexivity.
  assert (H : forallb (fun x => char_eqb (lowerChar (lowerChar (Latin x)))
                                         (lowerChar (Latin x)))
                      (map ascii_of_nat (seq 0 256)) = true) by (vm_compute; reflexivity).
  rewrite forallb_forall in H. specialize (H a (ascii_enum a)).
  now apply char_eqb_eq in H.
Qed.

Lemma lowerChar_Latin (a : ascii) : exists b, lowerChar (Latin a) = Latin b.
Proof. cbn. destruct (isUpper a); eauto. Qed.

Lemma sameLetter_lowerChar (a b : char) :
  ContentViewer.sameLetter a b = true -> lowerChar a = lowerChar b.
Proof.
  destruct a as [x| | |], b as [y| | |]; try discriminate; try reflexivity.
  apply latin_tables.
Qed.

Lemma sameLetter_context (a b : char) :
  ContentViewer.sameLetter a b = true ->
  cased a = cased b /\ caseIgnorable a = caseIgnorable b
  /\ (a = CapitalSigma <-> b = CapitalSigma).
Proof.
  destruct a as [x| | |], b as [y| | |]; try discriminate; intros H;
    try (repeat split; reflexivity || discriminate || tauto).
  destruct (proj2 (latin_tables x y) H) as [Hc Hi].
  repeat split; try assumption; discriminate.
Qed.

(** Away from capital sigma the conversion is the table, unit by unit. *)
Lemma lowerFrom_map (before : bool) (s : text) :
  Forall (fun c => c <> CapitalSigma) s -> lowerFrom before s = map lowerChar s.
Proof.
  intros H. revert before. induction H as [|c r Hc Hr IH]; intros before; [reflexivity|].
  cbn [lowerFrom map]. rewrite IH. destruct c; try reflexivity. contradiction.
Qed.




Lemma lowerFrom_length (before : bool) (s : text) :
  length (lowerFrom before s) = length s.
Proof.
  revert before. induction s as [|c r IH]; intros before; cbn [lowerFrom length];
    [reflexivity | now rewrite IH].
Qed.




(** The conversion in context does not tell apart two texts that spell the
    same letters. *)
Lemma equalIgnoringCase_followed (r r' : text) :
  ContentViewer.equalIgnoringCase r r' = true -> followedByCased r = followedByCased r'.
Proof.
  revert r'. induction r as [|x r IH]; intros [|y r']; cbn; try discriminate; [reflexivity|].
  rewrite andb_true_iff. intros [Hs Hr].
  destruct (sameLetter_context _ _ Hs) as (Hc & Hi & _).
  now rewrite Hc, Hi, (IH _ Hr).
Qed.

Lemma equalIgnoringCase_lowerFrom (before : bool) (q q' : text) :
  ContentViewer.equalIgnoringCase q q' = true -> lowerFrom before q = lowerFrom before q'.
Proof.
  revert before q'. induction q as [|x q IH]; intros before [|y q']; cbn [ContentViewer.equalIgnoringCase];
    try discriminate; [reflexivity|].
  rewrite andb_true_iff. intros [Hs Hr].
  destruct (sameLetter_context _ _ Hs) as (Hc & Hi & Hsig).
  cbn [lowerFrom]. rewrite Hc, Hi, (IH _ _ Hr), (equalIgnoringCase_followed _ _ Hr).
  f_equal. destruct x as [a| | |], y as [b| | |]; try discriminate; try reflexivity.
  now apply sameLetter_lowerChar.
Qed.

Lemma lowerFrom_fixed (before : bool) (s : text) :
  Forall (fun c => c <> CapitalSigma /\ lowerChar c = c) (lowerFrom before s).
Proof.
  revert before. induction s as [|c r IH]; intros before; cbn [lowerFrom]; constructor;
    [|apply IH].
  destruct c as [a| | |].
  - split; [|apply lowerChar_idem]. destruct (lowerChar_Latin a) as [b ->]. discriminate.
  - destruct (before && negb (followedByCased r)); split; discriminate || reflexivity.
  - split; discriminate || reflexivity.
  - split; discriminate || reflexivity.
Qed.

Lemma toLowerCase_idem (s : text) : toLowerCase (toLowerCase s) = toLowerCase s.
Proof.
  unfold toLowerCase. pose proof (lowerFrom_fixed false s) as H.
  rewrite lowerFrom_map by (eapply List.Forall_impl; [|exact H]; cbn; tauto).
  induction H as [|c r [_ Hc] Hr IH]; [reflexivity|]. cbn [map]. now rewrite Hc, IH.
Qed.

End StringFacts.

(* ===================================================================== *)
(** ** The content viewer's search *)
(* ===================================================================== *)

Section Search.
Import JsString ContentViewer.



Example filteredContent_milk :
  map id (filteredContent [Sample.notes; Sample.tasks] (ofString "milk")) = ["a"].
Proof. reflexivity. Qed.

Example filteredContent_upper_query :
  map id (filteredContent [Sample.notes; Sample.tasks] (ofString "TaSk")) = ["b"].
Proof. reflexivity. Qed.

Example filteredContent_no_match :
  filteredContent [Sample.notes; Sample.tasks] (ofString "bread") = [].
Proof. reflexivity. Qed.

(** An accented capital of the Latin-1 range is found by its small letter:
    an entry titled CAF and U+00C9 is listed for the query caf and
    U+00E9. *)
Example filteredContent_accented :
  map id (filteredContent [Sample.cafe]
            (ofString "caf" ++ [Latin (ascii_of_nat 233)])) = ["c"].
Proof. reflexivity. Qed.

(** The conversion in context: a capital sigma after a cased letter and
    before none becomes the final sigma, a capital sigma alone the small
    sigma. *)
Example toLowerCase_final_sigma :
  toLowerCase [Latin "A"; CapitalSigma] = [Latin "a"; FinalSigma]
  /\ toLowerCase [CapitalSigma] = [SmallSigma]
  /\ toLowerCase [Latin "A"; CapitalSigma; Latin "."; Latin "B"]
     = [Latin "a"; SmallSigma; Latin "."; Latin "b"].
Proof. repeat split. Qed.




Lemma alloc_frame (a : list ContentItem) (h : Heap) (l : loc) :
  wf h -> is_Some (cells h !! l) ->
  cells (snd (alloc a h)) !! l = cells h !! l.
Proof.
  intros Hwf Hl. simpl. apply lookup_insert_ne.
  specialize (Hwf l Hl). lia.
Qed.

Lemma alloc_wf (a : list ContentItem) (h : Heap) : wf h -> wf (snd (alloc a h)).
Proof.
  intros Hwf l. simpl. destruct (decide (next h = l)) as [<-|Hne].
  - intros _. lia.
  - rewrite lookup_insert_ne by assumption. intros H.
    specialize (Hwf l H). lia.
Qed.

(** C8. Evaluating the search on a snapshot returns the filtered copy in a
    new array and leaves every array of the snapshot, the cached content
    list among them, as it was; a second evaluation with the same query
    returns the same list. *)
Theorem evalFilteredContent_pure (s : State) (h : Heap) (a : list ContentItem) :
  wf h ->
  cells h !! st_content s = Some a ->
  exists l1 h1 l2 h2,
    evalFilteredContent s h = Some (l1, h1)
    /\ cells h1 !! l1 = Some (filteredContent a (searchQuery s))
    /\ cells h1 !! st_content s = Some a
    /\ (forall l, is_Some (cells h !! l) -> cells h1 !! l = cells h !! l)
    /\ evalFilteredContent s h1 = Some (l2, h2)
    /\ cells h2 !! l2 = cells h1 !! l1
    /\ cells h2 !! st_content s = Some a.
Proof.
  intros Hwf Ha.
  set (fc := filteredContent a (searchQuery s)).
  set (h1 := snd (alloc fc h)).
  set (h2 := snd (alloc fc h1)).
  assert (Hframe : forall l, is_Some (cells h !! l) -> cells h1 !! l = cells h !! l)
    by (intros l Hl; now apply alloc_frame).
  assert (Hwf1 : wf h1) by now apply alloc_wf.
  assert (Ha1 : cells h1 !! st_content s = Some a)
    by (rewrite Hframe; [assumption | rewrite Ha; eauto]).
  assert (Hnew1 : cells h1 !! next h = Some fc) by apply lookup_insert_eq.
  assert (Hnew2 : cells h2 !! next h1 = Some fc) by apply lookup_insert_eq.
  exists (next h), h1, (next h1), h2. repeat split.
  - unfold evalFilteredContent, Array_filter. now rewrite Ha.
  - exact Hnew1.
  - exact Ha1.
  - exact Hframe.
  - unfold evalFilteredContent, Array_filter. now rewrite Ha1.
  - now rewrite Hnew1, Hnew2.
  - unfold h2. rewrite alloc_frame; [exact Ha1 | exact Hwf1 | rewrite Ha1; eauto].
Qed.

Lemma viewerHeap_wf : wf Sample.viewerHeap.
Proof.
  intros l [a Ha]. destruct l as [|l]; [cbn; lia|].
  cbn in Ha. rewrite lookup_singleton_ne in Ha by lia. discriminate.
Defined.

Lemma evalFilteredContent_pure_witness :
  wf Sample.viewerHeap
  /\ cells Sample.viewerHeap !! st_content Sample.viewerState
     = Some [Sample.notes; Sample.tasks]
  /\ exists l1 h1 l2 h2,
       evalFilteredContent Sample.viewerState Sample.viewerHeap = Some (l1, h1)
       /\ cells h1 !! l1
          = Some (filteredContent [Sample.notes; Sample.tasks]
                    (searchQuery Sample.viewerState))
       /\ cells h1 !! st_content Sample.viewerState = Some [Sample.notes; Sample.tasks]
       /\ (forall l, is_Some (cells Sample.viewerHeap !! l) ->
             cells h1 !! l = cells Sample.viewerHeap !! l)
       /\ evalFilteredContent Sample.viewerState h1 = Some (l2, h2)
       /\ cells h2 !! l2 = cells h1 !! l1
       /\ cells h2 !! st_content Sample.viewerState = Some [Sample.notes; Sample.tasks].
Proof.
  split; [exact viewerHeap_wf|]. split; [reflexivity|].
  apply (evalFilteredContent_pure Sample.viewerState Sample.viewerHeap
           [Sample.notes; Sample.tasks]).
  - exact viewerHeap_wf.
  - reflexivity.
Defined.

End Search.

(* ===================================================================== *)
(** ** The dashboard's handlers *)
(* ===================================================================== *)

Section DashboardFacts.
Import Js Dashboard.

(** Runs a handler symbolically down to the answers of the network. *)
Ltac run_async :=
  unfold clickSyncNow, clickViewContent, Button_click, handleManualSync,
    handleToggleSync, fetchData, setItems, setLoading, setSyncing, setStatus;
  unfold mbind, mret, Async_bind, Async_ret, tryCatchFinally, tryCatch,
    Promise_all2, request, emit, update;
  cbn [ui log items loading syncing status filter fst snd].

(** C4. When the enumeration request of [fetchData] fails, the failure is
    reported and the item list held before the call is the item list held
    after it; the status is kept as well.  The error logged is the one of
    the request that failed first: the enumeration's, unless the status
    request failed too and before it. *)
Theorem fetchData_failure_keeps_items (net : Network) (w : World) (e : string) :
  workspaceRes net = Rejected e ->
  exists w',
    fetchData net w = (Resolved tt, w')
    /\ items (ui w') = items (ui w)
    /\ status (ui w') = status (ui w)
    /\ loading (ui w') = false
    /\ log w' = (log w ++ [Http GetWorkspace; Http GetStatus;
                           ConsoleError "Error fetching data:"
                             match statusRes net with
                             | Rejected e' => if statusFirst net then e' else e
                             | Resolved _ => e
                             end;
                           ToastError "Failed to load workspace data"])%list.
Proof.
  intros H. run_async. rewrite H.
  destruct (statusRes net) as [b|e']; cbn [ui log items status loading];
    (eexists; split; [reflexivity|]); cbn [ui log items status loading];
    repeat split; rewrite <- ?List.app_assoc; reflexivity.
Qed.

Lemma fetchData_failure_keeps_items_witness :
  workspaceRes Sample.offline = Rejected "Network Error"
  /\ exists w',
       fetchData Sample.offline Sample.dashboard = (Resolved tt, w')
       /\ items (ui w') = items (ui Sample.dashboard)
       /\ status (ui w') = status (ui Sample.dashboard)
       /\ loading (ui w') = false
       /\ log w' = (log Sample.dashboard
                    ++ [Http GetWorkspace; Http GetStatus;
                        ConsoleError "Error fetching data:"
                          match statusRes Sample.offline with
                          | Rejected e' =>
                              if statusFirst Sample.offline then e' else "Network Error"
                          | Resolved _ => "Network Error"
                          end;
                        ToastError "Failed to load workspace data"])%list.
Proof.
  split; [reflexivity|].
  apply (fetchData_failure_keeps_items Sample.offline Sample.dashboard "Network Error").
  reflexivity.
Defined.

(** With both requests failing, the status request first, the error logged
    is the status request's. *)
Example fetchData_logs_first_rejection :
  In (ConsoleError "Error fetching data:" "Request failed with status code 500")
     (log (snd (fetchData Sample.offline Sample.dashboard))).
Proof. vm_compute. right. right. left. reflexivity. Qed.

(** What [handleToggleSync] does when the request is accepted. *)
Lemma handleToggleSync_resolved (r : State) (itemId itemType : string)
    (currentState : bool) (net : Network) (w : World) :
  toggleRes net itemId itemType (negb currentState) = Resolved tt ->
  handleToggleSync r itemId itemType currentState net w =
  (Resolved tt,
   {| ui := {| items := map (fun item => if String.eqb (id item) itemId
                                         then withSynced item (negb currentState)
                                         else item) (items r);
               loading := loading (ui w); syncing := syncing (ui w);
               status := status (ui w); filter := filter (ui w) |};
      log := (log w ++ [Http (PostToggleSync itemId itemType (negb currentState));
                        ToastSuccess (if negb currentState then "Added to sync"
                                      else "Removed from sync")])%list |}).
Proof.
  intros H. run_async. rewrite H. cbn [ui log]. rewrite <- ?List.app_assoc. reflexivity.
Qed.

(** What it does when the request is refused. *)
Lemma handleToggleSync_rejected (r : State) (itemId itemType : string)
    (currentState : bool) (net : Network) (w : World) (e : string) :
  toggleRes net itemId itemType (negb currentState) = Rejected e ->
  handleToggleSync r itemId itemType currentState net w =
  (Resolved tt,
   {| ui := ui w;
      log := (log w ++ [Http (PostToggleSync itemId itemType (negb currentState));
                        ConsoleError "Error toggling sync:" e;
                        ToastError "Failed to update sync preference"])%list |}).
Proof.
  intros H. run_async. rewrite H. cbn [ui log]. rewrite <- ?List.app_assoc. reflexivity.
Qed.

Lemma toggle_map_frame (itemId : string) (v : bool) (l : list WorkspaceItem) :
  Forall2 (sameButSynced itemId) l
    (map (fun item => if String.eqb (id item) itemId then withSynced item v else item) l).
Proof.
  induction l as [|x l IH]; simpl; constructor; [|exact IH].
  destruct (String.eqb_spec (id x) itemId) as [Heq|Hne]; unfold sameButSynced; simpl.
  - repeat split; auto. intros Hc. contradiction.
  - repeat split; auto.
Qed.

Lemma Forall2_sameButSynced_refl (itemId : string) (l : list WorkspaceItem) :
  Forall2 (sameButSynced itemId) l l.
Proof. induction l; constructor; unfold sameButSynced; auto. Qed.

(** A toggle of the item [itemId], when the handler was created by the
    render that shows the current list, sends the one [toggle-sync] request
    and nothing else to the network; position by position the new list
    holds the old item, equal to it when its id is another one and equal to
    it in every field but [synced] otherwise; the other state cells are
    kept. *)
Theorem handleToggleSync_frame (r : State) (itemId itemType : string)
    (currentState : bool) (net : Network) (w : World) :
  ui w = r ->
  exists w' effs,
    handleToggleSync r itemId itemType currentState net w = (Resolved tt, w')
    /\ log w' = (log w ++ effs)%list
    /\ httpRequests effs = [PostToggleSync itemId itemType (negb currentState)]
    /\ Forall2 (sameButSynced itemId) (items r) (items (ui w'))
    /\ loading (ui w') = loading r /\ syncing (ui w') = syncing r
    /\ status (ui w') = status r /\ filter (ui w') = filter r.
Proof.
  intros <-.
  destruct (toggleRes net itemId itemType (negb currentState)) as [[]|e] eqn:H.
  - rewrite (handleToggleSync_resolved _ _ _ _ _ _ H).
    eexists _, _. split; [reflexivity|]. cbn [ui log items loading syncing status filter].
    split; [reflexivity|]. split; [reflexivity|].
    split; [apply toggle_map_frame|]. auto.
  - rewrite (handleToggleSync_rejected _ _ _ _ _ _ e H).
    eexists _, _. split; [reflexivity|]. cbn [ui log].
    split; [reflexivity|]. split; [reflexivity|].
    split; [apply Forall2_sameButSynced_refl|]. auto.
Qed.

Lemma handleToggleSync_frame_witness :
  ui Sample.dashboard = ui Sample.dashboard
  /\ exists w' effs,
       handleToggleSync (ui Sample.dashboard) "b" "database" false
         Sample.online Sample.dashboard = (Resolved tt, w')
       /\ log w' = (log Sample.dashboard ++ effs)%list
       /\ httpRequests effs = [PostToggleSync "b" "database" (negb false)]
       /\ Forall2 (sameButSynced "b") (items (ui Sample.dashboard)) (items (ui w'))
       /\ loading (ui w') = loading (ui Sample.dashboard)
       /\ syncing (ui w') = syncing (ui Sample.dashboard)
       /\ status (ui w') = status (ui Sample.dashboard)
       /\ filter (ui w') = filter (ui Sample.dashboard).
Proof.
  split; [reflexivity|].
  apply (handleToggleSync_frame (ui Sample.dashboard) "b" "database" false
           Sample.online Sample.dashboard).
  reflexivity.
Defined.

(** C6. The frame fails when the handler was created by an older render.
    On the dashboard showing [a] on and [b] off, the user switches [a] off
    and, before that request has returned, switches [b] on.  When the
    first answer arrives the list shows both rows off; when the second
    arrives, the handler of [b] writes the list of the render it was
    created in with [b] switched on: toggling [b] has turned [a], an item
    with another id, back on. *)
Theorem handleToggleSync_stale_render :
  let r := ui Sample.dashboard in
  let w1 := snd (handleToggleSync r "a" "page" true Sample.online Sample.dashboard) in
  let w2 := snd (handleToggleSync r "b" "database" false Sample.online w1) in
  map synced (items r) = [true; false]
  /\ map synced (items (ui w1)) = [false; false]
  /\ map synced (items (ui w2)) = [true; true]
  /\ ~ Forall2 (sameButSynced "b") (items (ui w1)) (items (ui w2)).
Proof.
  cbn. repeat split. intros H. inversion H as [|x y l l' Hxy _]; subst.
  destruct Hxy as (_ & _ & _ & _ & Hsame).
  specialize (Hsame ltac:(discriminate)). discriminate.
Qed.



(** [handleManualSync] never rejects: whatever the backend answers, the
    handler returns with the [syncing] flag cleared. *)
Lemma handleManualSync_settles (net : Network) (w : World) :
  fst (handleManualSync net w) = Resolved tt
  /\ syncing (ui (snd (handleManualSync net w))) = false.
Proof.
  run_async.
  destruct (syncRes net) as [resp|e]; cbn [ui log];
    destruct (workspaceRes net), (statusRes net); cbn [ui log fst snd syncing];
    split; reflexivity.
Qed.

(** C9. While a sync is in flight, or while no item of the list is selected,
    a click on Sync Now runs nothing: no request is sent and no state cell
    changes. *)
Theorem clickSyncNow_guarded (r : State) (net : Network) (w : World) :
  syncing r = true \/ syncedItems r = [] ->
  clickSyncNow r net w = (Resolved tt, w).
Proof.
  intros H. unfold clickSyncNow, Button_click, syncNowDisabled.
  destruct H as [-> | ->]; [reflexivity|].
  now rewrite orb_true_r.
Qed.

Lemma clickSyncNow_guarded_witness :
  (syncing Sample.dashboardSyncing = true \/ syncedItems Sample.dashboardSyncing = [])
  /\ clickSyncNow Sample.dashboardSyncing Sample.online Sample.dashboard
     = (Resolved tt, Sample.dashboard).
Proof.
  split; [left; reflexivity|].
  apply (clickSyncNow_guarded Sample.dashboardSyncing Sample.online Sample.dashboard).
  left. reflexivity.
Defined.

(** Otherwise the click runs [handleManualSync], whose first effect is the
    sync request. *)
Lemma clickSyncNow_enabled (r : State) (net : Network) (w : World) :
  syncing r = false -> syncedItems r <> [] ->
  clickSyncNow r net w = handleManualSync net w
  /\ exists effs, log (snd (handleManualSync net w)) = (log w ++ Http PostSync :: effs)%list.
Proof.
  intros Hs Hn. split.
  - unfold clickSyncNow, Button_click, syncNowDisabled. rewrite Hs.
    destruct (syncedItems r); [contradiction | reflexivity].
  - run_async.
    destruct (syncRes net) as [resp|e]; cbn [ui log];
      destruct (workspaceRes net), (statusRes net); cbn [ui log snd];
      rewrite <- ?List.app_assoc; cbn [app]; eexists; reflexivity.
Qed.

Lemma getProp_eq_Num (o : object) (k : string) (n : Z) :
  getProp o k = Num n <-> o !! k = Some (Num n).
Proof.
  unfold getProp. destruct (o !! k) as [v|]; simpl; split; congruence.
Qed.

Lemma strictEq_Num (v : value) (n : Z) : strictEq v (Num n) = true <-> v = Num n.
Proof.
  destruct v; simpl; try (split; [discriminate | discriminate]).
  rewrite Z.eqb_eq. split; congruence.
Qed.

(** C10. View Content is disabled exactly when the status object holds the
    number 0 under [total_synced]; when the property is absent, as in the
    empty status object of the first render, the control is enabled and a
    click navigates to the content page. *)
Theorem viewContentDisabled_iff :
  (forall r, viewContentDisabled r = true <-> status r !! "total_synced" = Some (Num 0))
  /\ (forall r, status r !! "total_synced" = None -> viewContentDisabled r = false)
  /\ viewContentDisabled initialState = false
  /\ (forall net w, clickViewContent initialState net w
                    = emit (Navigate "/content") net w).
Proof.
  split; [|split; [|split]].
  - intros r. unfold viewContentDisabled. now rewrite strictEq_Num, getProp_eq_Num.
  - intros r H. unfold viewContentDisabled, getProp. now rewrite H.
  - reflexivity.
  - reflexivity.
Qed.

End DashboardFacts.

(* ===================================================================== *)
(** ** The coordinator *)
(* ===================================================================== *)

Section CoordinatorFacts.
Import Coordinator.
Context (gateway : string -> ItemType -> Error + Fetched) (now : nat).

Local Abbreviation drive :=
  (fold_left (fun cr it => step (fst cr) (FetchReturned (gateway (fst it) (snd it)) now))).

Lemma selected_elem (c : State) (itemId : string) (itemType : ItemType) :
  (itemId, itemType) ∈ selected c <->
  exists p, prefs c !! itemId = Some p /\ enabled p = true /\ pref_itemType p = itemType.
Proof.
  unfold selected. rewrite list_elem_of_fmap. split.
  - intros ([k p] & Heq & Hin). simpl in Heq. injection Heq as -> ->.
    apply list_elem_of_In, filter_In in Hin as [Hin He].
    apply list_elem_of_In, elem_of_map_to_list in Hin. eauto.
  - intros (p & Hp & He & <-). exists (itemId, p). split; [reflexivity|].
    apply list_elem_of_In, filter_In. split; [|exact He].
    now apply list_elem_of_In, elem_of_map_to_list.
Qed.

Lemma selected_NoDup (c : State) : NoDup (selected c).*1.
Proof.
  assert (Hfst : (selected c).*1
                 = (List.filter (fun kp => enabled (snd kp)) (map_to_list (prefs c))).*1).
  { unfold selected. rewrite <- list_fmap_compose.
    apply list_fmap_ext. intros ? [] ?. reflexivity. }
  rewrite Hfst. apply (sublist_NoDup _ ((map_to_list (prefs c)).*1)).
  - apply NoDup_fst_map_to_list.
  - apply fmap_sublist, List_filter_sublist.
Qed.

(** From a pass in flight with the items [l] left, the answers of the
    gateway drive the coordinator to the end of the pass. *)
Lemma drive_pass (l : list (string * ItemType)) :
  forall (c : State) (s f : nat),
    NoDup l.*1 ->
    inFlight c = Some {| pending := l; syncedCount := s; failedCount := f |} ->
    exists c' r,
      drive l (settle c) = (c', Some (Completed r))
      /\ r_syncedCount r = s + length (List.filter (fun it => negb (fetchFails gateway it)) l)
      /\ r_failedCount r = f + length (List.filter (fetchFails gateway) l)
      /\ lastSyncTimestamp r = latestSync (cache c')
      /\ inFlight c' = None
      /\ prefs c' = prefs c
      /\ (forall itemId itemType, (itemId, itemType) ∈ l ->
            cache c' !! itemId =
            match gateway itemId itemType with
            | inr x => Some (syncedEntry itemType x now)
            | inl _ => cache c !! itemId
            end)
      /\ (forall itemId, itemId ∉ l.*1 -> cache c' !! itemId = cache c !! itemId).
Proof.
  induction l as [|[id0 ty0] l IH]; intros c s f Hnd Hc.
  - unfold settle. rewrite Hc. cbn. eexists _, _. split; [reflexivity|].
    cbn. repeat split; try lia. intros ? ? Hin. inversion Hin.
  - unfold settle at 1. rewrite Hc. cbn [pending fold_left fst snd step].
    rewrite fmap_cons in Hnd. apply NoDup_cons in Hnd as [Hfresh Hnd]. cbn [fst] in Hfresh.
    unfold fetchStep. rewrite Hc. cbn [pending syncedCount failedCount].
    cbn [List.filter].
    destruct (gateway id0 ty0) as [e|x] eqn:Hg.
    + assert (Hff : fetchFails gateway (id0, ty0) = true)
        by (unfold fetchFails; cbn [fst snd]; now rewrite Hg).
      rewrite Hff. cbn [negb].
      match goal with
      | |- context [settle ?c1] =>
          destruct (IH c1 _ _ Hnd eq_refl)
            as (c' & r & Hrun & Hs & Hf & Hts & Hidle & Hprefs & Hsel & Hother)
      end.
      cbn [prefs cache] in *.
      exists c', r. split; [exact Hrun|].
      split; [exact Hs|]. split; [rewrite Hf; cbn [length]; lia|].
      split; [exact Hts|]. split; [exact Hidle|]. split; [exact Hprefs|].
      split.
      * intros itemId itemType Hin. apply elem_of_cons in Hin as [Heq|Hin].
        -- injection Heq as -> ->. rewrite Hg. now apply Hother.
        -- now apply Hsel.
      * intros itemId Hnin. rewrite fmap_cons in Hnin.
        apply not_elem_of_cons in Hnin as [_ Hnin]. now apply Hother.
    + assert (Hff : fetchFails gateway (id0, ty0) = false)
        by (unfold fetchFails; cbn [fst snd]; now rewrite Hg).
      rewrite Hff. cbn [negb].
      match goal with
      | |- context [settle ?c1] =>
          destruct (IH c1 _ _ Hnd eq_refl)
            as (c' & r & Hrun & Hs & Hf & Hts & Hidle & Hprefs & Hsel & Hother)
      end.
      cbn [prefs cache] in *.
      exists c', r. split; [exact Hrun|].
      split; [rewrite Hs; cbn [length]; lia|]. split; [exact Hf|].
      split; [exact Hts|]. split; [exact Hidle|]. split; [exact Hprefs|].
      split.
      * intros itemId itemType Hin. apply elem_of_cons in Hin as [Heq|Hin].
        -- injection Heq as -> ->. rewrite Hg.
           rewrite (Hother _ Hfresh). apply lookup_insert_eq.
        -- rewrite (Hsel _ _ Hin).
           destruct (gateway itemId itemType); [|reflexivity].
           apply lookup_insert_ne. intros ->. apply Hfresh.
           apply list_elem_of_fmap. now exists (itemId, itemType).
      * intros itemId Hnin. rewrite fmap_cons in Hnin.
        apply not_elem_of_cons in Hnin as [Hne Hnin]. cbn [fst] in Hne.
        rewrite (Hother _ Hnin). now apply lookup_insert_ne.
Qed.

(** A pass asked of an idle coordinator runs to its end and reports. *)
Lemma runSyncPass_idle (trigger : Trigger) (c : State) :
  inFlight c = None ->
  exists c' r,
    runSyncPass trigger gateway now c = (c', Some (Completed r))
    /\ r_syncedCount r = length (List.filter (fun it => negb (fetchFails gateway it)) (selected c))
    /\ r_failedCount r = length (List.filter (fetchFails gateway) (selected c))
    /\ lastSyncTimestamp r = latestSync (cache c')
    /\ inFlight c' = None
    /\ prefs c' = prefs c
    /\ (forall itemId itemType, (itemId, itemType) ∈ selected c ->
          cache c' !! itemId =
          match gateway itemId itemType with
          | inr x => Some (syncedEntry itemType x now)
          | inl _ => cache c !! itemId
          end)
    /\ (forall itemId, itemId ∉ (selected c).*1 -> cache c' !! itemId = cache c !! itemId).
Proof.
  intros Hidle. unfold runSyncPass. rewrite Hidle. cbn [step]. rewrite Hidle.
  apply (drive_pass (selected c) (beginPass c) 0 0).
  - apply selected_NoDup.
  - reflexivity.
Qed.

End CoordinatorFacts.

(* ===================================================================== *)
(** ** The coordinator's contract *)
(* ===================================================================== *)

Section Contract.
Import Coordinator.

(** C2. A pass over [n] selected items for [k] of which the gateway fails,
    asked of an idle coordinator, completes: it reports [n - k] synced and
    [k] failed, releases the guard, writes the fresh entry of every item
    whose fetch succeeded and leaves the cache entry of every other item,
    the failed ones among them, as it was. *)
Theorem runSyncPass_partial_failure (trigger : Trigger)
    (gateway : string -> ItemType -> Error + Fetched) (now : nat)
    (c : State) (n k : nat) :
  inFlight c = None ->
  length (selected c) = n ->
  length (List.filter (fetchFails gateway) (selected c)) = k ->
  exists c',
    runSyncPass trigger gateway now c
    = (c', Some (Completed {| r_syncedCount := n - k; r_failedCount := k;
                              lastSyncTimestamp := latestSync (cache c') |}))
    /\ inFlight c' = None
    /\ prefs c' = prefs c
    /\ (forall itemId itemType, (itemId, itemType) ∈ selected c ->
          cache c' !! itemId =
          match gateway itemId itemType with
          | inr x => Some (syncedEntry itemType x now)
          | inl _ => cache c !! itemId
          end)
    /\ (forall itemId, itemId ∉ (selected c).*1 -> cache c' !! itemId = cache c !! itemId).
Proof.
  intros Hidle Hn Hk.
  destruct (runSyncPass_idle gateway now trigger c Hidle)
    as (c' & [s f ts] & Hrun & Hs & Hf & Hts & Hrest).
  cbn [r_syncedCount r_failedCount lastSyncTimestamp] in Hs, Hf, Hts.
  exists c'. split; [|exact Hrest].
  rewrite Hrun. do 3 f_equal.
  pose proof (List_filter_length_split (fetchFails gateway) (selected c)) as Hsplit.
  f_equal; [lia | lia | exact Hts].
Qed.

Lemma runSyncPass_partial_failure_witness :
  inFlight Sample.threeSelected = None
  /\ length (selected Sample.threeSelected) = 3
  /\ length (List.filter (fetchFails Sample.failsOnB) (selected Sample.threeSelected)) = 1
  /\ exists c',
       runSyncPass manual Sample.failsOnB 7 Sample.threeSelected
       = (c', Some (Completed {| r_syncedCount := 3 - 1; r_failedCount := 1;
                                 lastSyncTimestamp := latestSync (cache c') |}))
       /\ inFlight c' = None
       /\ prefs c' = prefs Sample.threeSelected
       /\ (forall itemId itemType, (itemId, itemType) ∈ selected Sample.threeSelected ->
             cache c' !! itemId =
             match Sample.failsOnB itemId itemType with
             | inr x => Some (syncedEntry itemType x 7)
             | inl _ => cache Sample.threeSelected !! itemId
             end)
       /\ (forall itemId, itemId ∉ (selected Sample.threeSelected).*1 ->
             cache c' !! itemId = cache Sample.threeSelected !! itemId).
Proof.
  split; [reflexivity|]. split; [vm_compute; reflexivity|].
  split; [vm_compute; reflexivity|].
  apply (runSyncPass_partial_failure manual Sample.failsOnB 7 Sample.threeSelected 3 1);
    vm_compute; reflexivity.
Defined.

(** C3. While a pass is in flight, a request for another one is answered
    [SyncInProgress] and leaves the coordinator as it was, the cache and the
    progress of the pass in flight included: no second pass is started.
    The request is not kept either: whatever happens next, the coordinator
    goes on as if the request had not been made. *)
Theorem runSyncPass_rejected_in_flight (trigger : Trigger)
    (gateway : string -> ItemType -> Error + Fetched) (now : nat)
    (c : State) (p : Pass) (evs : list Event) :
  inFlight c = Some p ->
  step c (RunSyncPass trigger) = (c, Some (Rejected SyncInProgress))
  /\ runSyncPass trigger gateway now c = (c, Some (Rejected SyncInProgress))
  /\ run c (RunSyncPass trigger :: evs)
     = (fst (run c evs), Rejected SyncInProgress :: snd (run c evs)).
Proof.
  intros H. unfold runSyncPass. cbn [run step]. rewrite H.
  repeat split. destruct (run c evs). reflexivity.
Qed.

Lemma runSyncPass_rejected_in_flight_witness :
  inFlight Sample.midPass
  = Some {| pending := selected Sample.threeSelected; syncedCount := 0; failedCount := 0 |}
  /\ step Sample.midPass (RunSyncPass scheduled)
     = (Sample.midPass, Some (Rejected SyncInProgress))
  /\ runSyncPass scheduled Sample.failsOnB 9 Sample.midPass
     = (Sample.midPass, Some (Rejected SyncInProgress))
  /\ run Sample.midPass [RunSyncPass scheduled; FetchReturned (inl Unauthorized) 9]
     = (fst (run Sample.midPass [FetchReturned (inl Unauthorized) 9]),
        Rejected SyncInProgress
          :: snd (run Sample.midPass [FetchReturned (inl Unauthorized) 9])).
Proof.
  split; [vm_compute; reflexivity|].
  apply (runSyncPass_rejected_in_flight scheduled Sample.failsOnB 9 Sample.midPass
           {| pending := selected Sample.threeSelected; syncedCount := 0; failedCount := 0 |}).
  vm_compute; reflexivity.
Defined.

(** C5. Selecting an item, running a pass and clearing the selection again
    leaves the cache as the pass left it, no call of [setPreference] ever
    touching the cache; when the pass fetched the item, its entry is still
    the fetched one after the selection is cleared. *)
Theorem toggle_off_keeps_content (trigger : Trigger)
    (gateway : string -> ItemType -> Error + Fetched) (now : nat)
    (c : State) (itemId : string) (itemType : ItemType) :
  let c1 := setPreference itemId itemType true c in
  let c2 := fst (runSyncPass trigger gateway now c1) in
  let c3 := setPreference itemId itemType false c2 in
  cache c3 = cache c2
  /\ inFlight c3 = inFlight c2
  /\ (forall c0 itemId0 itemType0 flag,
        cache (setPreference itemId0 itemType0 flag c0) = cache c0)
  /\ (forall x, inFlight c = None -> gateway itemId itemType = inr x ->
        cache c3 !! itemId = Some (syncedEntry itemType x now)).
Proof.
  intros c1 c2 c3. split; [reflexivity|]. split; [reflexivity|].
  split; [reflexivity|].
  intros x Hidle Hg. cbn [c3 setPreference cache].
  destruct (runSyncPass_idle gateway now trigger c1 Hidle)
    as (c' & r & Hrun & _ & _ & _ & _ & _ & Hsel & _).
  subst c2. rewrite Hrun. cbn [fst].
  rewrite (Hsel itemId itemType), Hg; [reflexivity|].
  apply selected_elem. eexists. split; [apply lookup_insert_eq|]. split; reflexivity.
Qed.

Lemma toggle_off_keeps_content_witness :
  let c1 := setPreference "a" page true Sample.threeSelected in
  let c2 := fst (runSyncPass manual Sample.failsOnB 7 c1) in
  let c3 := setPreference "a" page false c2 in
  cache c3 !! "a"
  = Some (syncedEntry page {| f_title := "a"; f_url := None; f_content := "text" |} 7).
Proof.
  exact (proj2 (proj2 (proj2 (toggle_off_keeps_content manual Sample.failsOnB 7
                                Sample.threeSelected "a" page)))
           _ eq_refl eq_refl).
Defined.

End Contract.

(* ===================================================================== *)
(** ** Preferences: the store and the list on screen *)
(* ===================================================================== *)

Section Preferences.



End Preferences.

(* ===================================================================== *)
(** ** More on the dashboard's handlers *)
(* ===================================================================== *)

Section DashboardHandlers.
Import Js JsOps Dashboard DashboardRender.

Ltac run_handler :=
  unfold changeToggle, clickSyncNow, clickViewContent, Button_click, handleManualSync,
    handleToggleSync, fetchData, setItems, setLoading, setSyncing, setStatus;
  unfold mbind, mret, Async_bind, Async_ret, tryCatchFinally, tryCatch,
    Promise_all2, request, emit, update;
  cbn [ui log items loading syncing status filter fst snd].

(** X1. [fetchData] never rejects and is all or nothing: it sends the two
    requests, clears [loading], leaves [syncing] and [filter] alone, and
    either installs both answers or, as soon as one of the two requests
    fails, keeps both the list and the status it had, even when the list
    did arrive.  The items card then shows the rows, or "No items found"
    for an empty list, also when the list is empty because the load
    failed. *)
Theorem fetchData_all_or_nothing (net : Network) (w : World) :
  exists w' effs,
    fetchData net w = (Resolved tt, w')
    /\ log w' = (log w ++ effs)%list
    /\ httpRequests effs = [GetWorkspace; GetStatus]
    /\ loading (ui w') = false
    /\ syncing (ui w') = syncing (ui w)
    /\ filter (ui w') = filter (ui w)
    /\ match workspaceRes net, statusRes net with
       | Resolved a, Resolved b => items (ui w') = a /\ status (ui w') = b
       | _, _ => items (ui w') = items (ui w) /\ status (ui w') = status (ui w)
       end
    /\ itemsCard (ui w') = match items (ui w') with
                           | [] => NoItemsFound
                           | _ :: _ => ItemRows (items (ui w'))
                           end.
Proof.
  run_handler.
  destruct (workspaceRes net) as [a|e1], (statusRes net) as [b|e2];
    cbn [ui log items loading syncing status filter];
    rewrite <- ?List.app_assoc; cbn [app];
    eexists _, _; (split; [reflexivity|]); (split; [reflexivity|]);
    unfold itemsCard; cbn [ui log items loading syncing status filter];
    repeat split; auto;
    match goal with |- context [length ?l] => destruct l; reflexivity end.
Qed.

(** X2. When the sync request is refused, [handleManualSync] does not refresh:
    the one request is sent, the failure is reported, and the page is left
    with the list, the status and the [loading] flag it had and with
    [syncing] cleared. *)
Theorem handleManualSync_rejected (net : Network) (w : World) (e : string) :
  syncRes net = Rejected e ->
  handleManualSync net w =
  (Resolved tt,
   {| ui := {| items := items (ui w); loading := loading (ui w); syncing := false;
               status := status (ui w); filter := filter (ui w) |};
      log := (log w ++ [Http PostSync; ConsoleError "Error syncing:" e;
                        ToastError "Sync failed. Please try again."])%list |}).
Proof.
  intros H. run_handler. rewrite H. cbn [ui log items loading syncing status filter].
  rewrite <- ?List.app_assoc. reflexivity.
Qed.

Lemma handleManualSync_rejected_witness :
  syncRes Sample.offline = Rejected "Network Error"
  /\ handleManualSync Sample.offline Sample.dashboard =
     (Resolved tt,
      {| ui := {| items := items (ui Sample.dashboard);
                  loading := loading (ui Sample.dashboard); syncing := false;
                  status := status (ui Sample.dashboard);
                  filter := filter (ui Sample.dashboard) |};
         log := (log Sample.dashboard
                 ++ [Http PostSync; ConsoleError "Error syncing:" "Network Error";
                     ToastError "Sync failed. Please try again."])%list |}).
Proof.
  split; [reflexivity|].
  apply (handleManualSync_rejected Sample.offline Sample.dashboard "Network Error").
  reflexivity.
Defined.

(** X3. When the sync request is accepted, [handleManualSync] announces the
    count the backend answered and then refreshes with [fetchData]: the
    page ends with [syncing] and [loading] cleared and with the refreshed
    list and status, or, when the refresh fails, with the old ones and a
    failure toast after the success toast. *)
Theorem handleManualSync_resolved (net : Network) (w : World) (response : object) :
  syncRes net = Resolved response ->
  exists w' effs,
    handleManualSync net w = (Resolved tt, w')
    /\ log w' = (log w ++ [Http PostSync;
                           ToastSuccess ("Synced "
                                         +:+ toString (getProp response "synced_count")
                                         +:+ " items successfully")] ++ effs)%list
    /\ httpRequests effs = [GetWorkspace; GetStatus]
    /\ syncing (ui w') = false
    /\ loading (ui w') = false
    /\ filter (ui w') = filter (ui w)
    /\ match workspaceRes net, statusRes net with
       | Resolved a, Resolved b =>
           items (ui w') = a /\ status (ui w') = b
           /\ effs = [Http GetWorkspace; Http GetStatus]
       | _, _ =>
           items (ui w') = items (ui w) /\ status (ui w') = status (ui w)
           /\ In (ToastError "Failed to load workspace data") effs
       end.
Proof.
  intros H. run_handler. rewrite H. cbn [ui log items loading syncing status filter].
  destruct (workspaceRes net) as [a|e1], (statusRes net) as [b|e2];
    cbn [ui log items loading syncing status filter];
    rewrite <- ?List.app_assoc; cbn [app];
    eexists _, _; (split; [reflexivity|]); (split; [reflexivity|]);
    cbn [ui log items loading syncing status filter httpRequests omap];
    repeat split; auto; cbn; auto.
Qed.

Lemma handleManualSync_resolved_witness :
  syncRes Sample.online = Resolved {[ "synced_count" := Num 1 ]}
  /\ exists w' effs,
       handleManualSync Sample.online Sample.dashboard = (Resolved tt, w')
       /\ log w' = (log Sample.dashboard
                    ++ [Http PostSync;
                        ToastSuccess ("Synced "
                           +:+ toString (getProp {[ "synced_count" := Num 1 ]} "synced_count")
                           +:+ " items successfully")] ++ effs)%list
       /\ httpRequests effs = [GetWorkspace; GetStatus]
       /\ syncing (ui w') = false
       /\ loading (ui w') = false
       /\ filter (ui w') = filter (ui Sample.dashboard)
       /\ match workspaceRes Sample.online, statusRes Sample.online with
          | Resolved a, Resolved b =>
              items (ui w') = a /\ status (ui w') = b
              /\ effs = [Http GetWorkspace; Http GetStatus]
          | _, _ =>
              items (ui w') = items (ui Sample.dashboard)
              /\ status (ui w') = status (ui Sample.dashboard)
              /\ In (ToastError "Failed to load workspace data") effs
          end.
Proof.
  split; [reflexivity|].
  apply (handleManualSync_resolved Sample.online Sample.dashboard).
  reflexivity.
Defined.

End DashboardHandlers.

(* ===================================================================== *)
(** ** The switches and the Sync Now control *)
(* ===================================================================== *)

Section Switches.
Import Js JsOps Dashboard DashboardRender.

(** The function [handleToggleSync] maps over the list. *)
Local Abbreviation flip itemId v :=
  (fun item : WorkspaceItem =>
     if String.eqb (id item) itemId then withSynced item v else item).

Lemma changeToggle_resolved (item : WorkspaceItem) (net : Network) (w : World) :
  toggleRes net (id item) (item_type item) (negb (synced item)) = Resolved tt ->
  ui (snd (changeToggle (ui w) item net w))
  = {| items := map (flip (id item) (negb (synced item))) (items (ui w));
       loading := loading (ui w); syncing := syncing (ui w);
       status := status (ui w); filter := filter (ui w) |}.
Proof.
  intros H. unfold changeToggle.
  now rewrite (handleToggleSync_resolved _ _ _ _ _ _ H).
Qed.


Lemma withSynced_same (x : WorkspaceItem) : withSynced x (synced x) = x.
Proof. now destruct x. Qed.

Lemma flip_present (item : WorkspaceItem) (v : bool) (l : list WorkspaceItem) :
  In item l -> In (withSynced item v) (map (flip (id item) v) l).
Proof.
  intros H. apply in_map_iff. exists item. split; [|exact H].
  now rewrite String.eqb_refl.
Qed.





(** X6. Switching a listed row on leaves at least one selected source: Sync Now
    is then disabled only by a sync in flight, and the auto-sync banner is
    shown. *)
Theorem changeToggle_on_enables_sync (item : WorkspaceItem) (net : Network) (w : World) :
  In item (items (ui w)) ->
  synced item = false ->
  toggleRes net (id item) (item_type item) true = Resolved tt ->
  let r' := ui (snd (changeToggle (ui w) item net w)) in
  syncNowDisabled r' = syncing (ui w) /\ autoSyncBanner r' = true.
Proof.
  intros Hin Hoff H r'. subst r'.
  rewrite changeToggle_resolved by now rewrite Hoff.
  unfold syncNowDisabled, autoSyncBanner, syncedItems. cbn [items syncing]. rewrite Hoff.
  assert (Hsel : In (withSynced item true)
                   (List.filter synced (map (flip (id item) (negb false)) (items (ui w))))).
  { apply filter_In. split; [now apply (flip_present item true)|reflexivity]. }
  destruct (List.filter synced (map (flip (id item) (negb false)) (items (ui w))));
    [contradiction|].
  cbn. now rewrite orb_false_r.
Qed.

Lemma changeToggle_on_enables_sync_witness :
  In Sample.itemB (items (ui Sample.dashboard))
  /\ synced Sample.itemB = false
  /\ toggleRes Sample.online (id Sample.itemB) (item_type Sample.itemB) true = Resolved tt
  /\ let r' := ui (snd (changeToggle (ui Sample.dashboard) Sample.itemB
                          Sample.online Sample.dashboard)) in
     syncNowDisabled r' = syncing (ui Sample.dashboard) /\ autoSyncBanner r' = true.
Proof.
  assert (Hin : In Sample.itemB (items (ui Sample.dashboard))) by (cbn; auto).
  split; [exact Hin|]. split; [reflexivity|]. split; [reflexivity|].
  apply (changeToggle_on_enables_sync Sample.itemB Sample.online Sample.dashboard Hin);
    reflexivity.
Defined.



(** X8. A refused toggle changes no state cell: the switch stays where it was
    and the user is told. *)
Theorem changeToggle_rejected (item : WorkspaceItem) (net : Network) (w : World)
    (e : string) :
  toggleRes net (id item) (item_type item) (negb (synced item)) = Rejected e ->
  changeToggle (ui w) item net w =
  (Resolved tt,
   {| ui := ui w;
      log := (log w ++ [Http (PostToggleSync (id item) (item_type item)
                                (negb (synced item)));
                        ConsoleError "Error toggling sync:" e;
                        ToastError "Failed to update sync preference"])%list |}).
Proof.
  intros H. unfold changeToggle. exact (handleToggleSync_rejected _ _ _ _ _ _ e H).
Qed.

Lemma changeToggle_rejected_witness :
  toggleRes Sample.offline (id Sample.itemB) (item_type Sample.itemB)
    (negb (synced Sample.itemB)) = Rejected "Network Error"
  /\ changeToggle (ui Sample.dashboard) Sample.itemB Sample.offline Sample.dashboard =
     (Resolved tt,
      {| ui := ui Sample.dashboard;
         log := (log Sample.dashboard
                 ++ [Http (PostToggleSync (id Sample.itemB) (item_type Sample.itemB)
                             (negb (synced Sample.itemB)));
                     ConsoleError "Error toggling sync:" "Network Error";
                     ToastError "Failed to update sync preference"])%list |}).
Proof.
  split; [reflexivity|].
  apply (changeToggle_rejected Sample.itemB Sample.offline Sample.dashboard "Network Error").
  reflexivity.
Defined.

(** The two parts put together are [handleToggleSync]. *)
Lemma handleToggleSync_phases (r : State) (itemId itemType : string)
    (currentState : bool) (net : Network) (w : World) :
  handleToggleSync r itemId itemType currentState net w
  = (toggleSent itemId itemType currentState ;;
     toggleSettled r itemId itemType currentState
       (toggleRes net itemId itemType (negb currentState))) net w.
Proof.
  unfold handleToggleSync, toggleSent, toggleSettled, tryCatch, request, emit, setItems,
    update, mbind, Async_bind.
  cbn [ui log]. destruct (toggleRes net itemId itemType (negb currentState)) as [[]|e];
    reflexivity.
Qed.

(** X9. Two toggles started from the same render do not add up.  Each
    handler maps the list of the render that created it, so when the switch
    of the row [b] is changed before the toggle of another row [a] has
    returned, both requests are sent, in the order of the clicks, but the
    list ends as that render's list with only one row toggled, the row
    whose answer arrived last; the other row is shown as it was before its
    own toggle. *)
Theorem overlapping_toggles_keep_last (r : State) (a b : WorkspaceItem)
    (aFirst : bool) (net : Network) (w : World) :
  In a (items r) ->
  In b (items r) ->
  id a <> id b ->
  toggleRes net (id a) (item_type a) (negb (synced a)) = Resolved tt ->
  toggleRes net (id b) (item_type b) (negb (synced b)) = Resolved tt ->
  let w' := snd (overlappingToggles r a b aFirst net w) in
  let last := if aFirst then b else a in
  let first := if aFirst then a else b in
  items (ui w') = map (flip (id last) (negb (synced last))) (items r)
  /\ In first (items (ui w'))
  /\ In (withSynced last (negb (synced last))) (items (ui w'))
  /\ exists effs,
       log w' = (log w ++ effs)%list
       /\ httpRequests effs
          = [PostToggleSync (id a) (item_type a) (negb (synced a));
             PostToggleSync (id b) (item_type b) (negb (synced b))].
Proof.
  intros Hina Hinb Hne Ha Hb w' last first. subst w' last first.
  unfold overlappingToggles. cbv zeta. rewrite Ha, Hb.
  unfold toggleSent, toggleSettled, emit, setItems, update, mbind, Async_bind.
  destruct aFirst; cbn [snd ui log items].
  - split; [reflexivity|]. split; [|split].
    + apply in_map_iff. exists a. split; [|exact Hina].
      destruct (String.eqb_spec (id a) (id b)); [contradiction|reflexivity].
    + now apply (flip_present b).
    + eexists. rewrite <- !List.app_assoc. split; reflexivity.
  - split; [reflexivity|]. split; [|split].
    + apply in_map_iff. exists b. split; [|exact Hinb].
      destruct (String.eqb_spec (id b) (id a)) as [Heq|]; [|reflexivity].
      symmetry in Heq. contradiction.
    + now apply (flip_present a).
    + eexists. rewrite <- !List.app_assoc. split; reflexivity.
Qed.

Lemma overlapping_toggles_keep_last_witness :
  In Sample.itemA (items (ui Sample.dashboard))
  /\ In Sample.itemB (items (ui Sample.dashboard))
  /\ id Sample.itemA <> id Sample.itemB
  /\ toggleRes Sample.online (id Sample.itemA) (item_type Sample.itemA)
       (negb (synced Sample.itemA)) = Resolved tt
  /\ toggleRes Sample.online (id Sample.itemB) (item_type Sample.itemB)
       (negb (synced Sample.itemB)) = Resolved tt
  /\ let w' := snd (overlappingToggles (ui Sample.dashboard) Sample.itemA Sample.itemB
                      false Sample.online Sample.dashboard) in
     let last := if false then Sample.itemB else Sample.itemA in
     let first := if false then Sample.itemA else Sample.itemB in
     items (ui w')
     = map (flip (id last) (negb (synced last))) (items (ui Sample.dashboard))
     /\ In first (items (ui w'))
     /\ In (withSynced last (negb (synced last))) (items (ui w'))
     /\ exists effs,
          log w' = (log Sample.dashboard ++ effs)%list
          /\ httpRequests effs
             = [PostToggleSync (id Sample.itemA) (item_type Sample.itemA)
                  (negb (synced Sample.itemA));
                PostToggleSync (id Sample.itemB) (item_type Sample.itemB)
                  (negb (synced Sample.itemB))].
Proof.
  assert (Hina : In Sample.itemA (items (ui Sample.dashboard))) by (cbn; auto).
  assert (Hinb : In Sample.itemB (items (ui Sample.dashboard))) by (cbn; auto).
  assert (Hne : id Sample.itemA <> id Sample.itemB) by discriminate.
  split; [exact Hina|]. split; [exact Hinb|]. split; [exact Hne|].
  split; [reflexivity|]. split; [reflexivity|].
  apply (overlapping_toggles_keep_last (ui Sample.dashboard) Sample.itemA Sample.itemB
           false Sample.online Sample.dashboard Hina Hinb Hne); reflexivity.
Defined.

End Switches.

(* ===================================================================== *)
(** ** What the dashboard shows *)
(* ===================================================================== *)

Section DashboardRendering.
Import Js JsOps Dashboard DashboardRender.
Local Open Scope Z_scope.

Lemma div_ltb (a b c : Z) : 0 < b -> (a / b <? c) = (a <? b * c).
Proof.
  intros Hb. destruct (Z.ltb_spec a (b * c)) as [Hlt|Hge].
  - apply Z.ltb_lt. now apply Z.div_lt_upper_bound.
  - apply Z.ltb_ge. now apply Z.div_le_lower_bound.
Qed.

Lemma ltb_div (a b c : Z) : 0 < b -> (c <? a / b) = (b * (c + 1) <=? a).
Proof.
  intros Hb. destruct (Z.leb_spec (b * (c + 1)) a) as [Hle|Hlt].
  - apply Z.ltb_lt. pose proof (Z.div_le_lower_bound a b (c + 1) Hb Hle). lia.
  - apply Z.ltb_ge. pose proof (Z.div_lt_upper_bound a b (c + 1) Hb Hlt). lia.
Qed.

Lemma div_eq_1 (a b : Z) : 0 < b -> b <= a -> a < b * 2 -> a / b = 1.
Proof.
  intros Hb Hlo Hhi.
  pose proof (Z.div_le_lower_bound a b 1 Hb ltac:(lia)).
  pose proof (Z.div_lt_upper_bound a b 2 Hb Hhi). lia.
Qed.

(** X10. For a valid date, [formatLastSync] reads off the elapsed milliseconds
    [d]: under a minute, and for a date in the future, "Just now"; then
    whole minutes up to the hour, whole hours up to the day and whole days,
    with "1 hour ago" and "1 day ago" in the singular. *)
Theorem formatLastSync_elapsed (getTime : value -> number) (now : Z)
    (isoString : value) (date : Z) :
  truthy isoString = true ->
  getTime isoString = Some date ->
  let d := now - date in
  formatLastSync getTime now isoString =
  if d <? 60000 then "Just now"%string
  else if d <? 3600000 then (pretty (d / 60000) +:+ " min ago")%string
  else if d <? 7200000 then "1 hour ago"%string
  else if d <? 86400000 then (pretty (d / 3600000) +:+ " hours ago")%string
  else if d <? 172800000 then "1 day ago"%string
  else (pretty (d / 86400000) +:+ " days ago")%string.
Proof.
  intros Ht Hd d. unfold formatLastSync. rewrite Ht, Hd. cbn [negb sub floorDiv lt gt numToString].
  fold d. rewrite !Z.div_div by lia. change (60000 * 60) with 3600000.
  change (3600000 * 24) with 86400000.
  rewrite !div_ltb, !ltb_div by lia.
  change (60000 * 1) with 60000. change (60000 * 60) with 3600000.
  change (3600000 * 24) with 86400000. change (3600000 * (1 + 1)) with 7200000.
  change (86400000 * (1 + 1)) with 172800000.
  destruct (Z.ltb_spec d 60000); [reflexivity|].
  destruct (Z.ltb_spec d 3600000); [reflexivity|].
  destruct (Z.ltb_spec d 86400000).
  - destruct (Z.ltb_spec d 7200000).
    + rewrite (proj2 (Z.leb_gt _ _)) by lia.
      now rewrite (div_eq_1 d 3600000) by lia.
    + now rewrite (proj2 (Z.leb_le _ _)) by lia.
  - rewrite (proj2 (Z.ltb_ge d 7200000)) by lia.
    destruct (Z.ltb_spec d 172800000).
    + rewrite (proj2 (Z.leb_gt _ _)) by lia.
      now rewrite (div_eq_1 d 86400000) by lia.
    + now rewrite (proj2 (Z.leb_le _ _)) by lia.
Qed.

Lemma formatLastSync_elapsed_witness :
  truthy (Str "2025-10-19T10:00:00.000Z") = true
  /\ SampleMore.getTime (Str "2025-10-19T10:00:00.000Z") = Some 1760868000000
  /\ formatLastSync SampleMore.getTime SampleMore.now (Str "2025-10-19T10:00:00.000Z")
     = "2 hours ago"%string.
Proof.
  split; [reflexivity|]. split; [reflexivity|].
  rewrite (formatLastSync_elapsed SampleMore.getTime SampleMore.now
             (Str "2025-10-19T10:00:00.000Z") 1760868000000 eq_refl eq_refl).
  vm_compute. reflexivity.
Defined.

Lemma String_length_append (a b : string) :
  String.length (a +:+ b) = (String.length a + String.length b)%nat.
Proof. induction a as [|c a IH]; simpl; [reflexivity | now f_equal]. Qed.

Lemma append_not_Never (a b : string) :
  (5 < String.length b)%nat -> (a +:+ b)%string <> "Never"%string.
Proof.
  intros Hb Heq. apply (f_equal String.length) in Heq.
  rewrite String_length_append in Heq. cbn in Heq. lia.
Qed.

(** X11. The edges of [formatLastSync]: it answers "Never" exactly for a falsy
    argument; a truthy argument that is no valid date is shown as
    "NaN day ago"; and since the line under the title calls it only for a
    truthy [last_sync], that line never reads "Last sync: Never". *)
Theorem formatLastSync_edges (getTime : value -> number) (now : Z) :
  (forall v, formatLastSync getTime now v = "Never"%string <-> truthy v = false)
  /\ (forall v, truthy v = true -> getTime v = None ->
        formatLastSync getTime now v = "NaN day ago"%string)
  /\ (forall r, lastSyncLine getTime now r <> Some "Last sync: Never"%string).
Proof.
  assert (Hnever : forall v, formatLastSync getTime now v = "Never"%string
                             <-> truthy v = false).
  { intros v. unfold formatLastSync. destruct (truthy v); cbn [negb]; [|tauto].
    split; [|discriminate]. intros H. exfalso. revert H.
    destruct (lt _ 1); [discriminate|].
    destruct (lt _ 60); [apply append_not_Never; cbn; lia|].
    destruct (lt _ 24).
    - apply append_not_Never. rewrite !String_length_append.
      destruct (gt _ 1); cbn; lia.
    - apply append_not_Never. rewrite !String_length_append.
      destruct (gt _ 1); cbn; lia. }
  split; [exact Hnever|]. split.
  - intros v Ht Hd. unfold formatLastSync. now rewrite Ht, Hd.
  - intros r. unfold lastSyncLine. cbv zeta.
    destruct (truthy (getProp (status r) "last_sync")) eqn:Ht.
    + intros H. injection H as H. cbn [String.append] in H.
      apply Hnever in H. congruence.
    + destruct (getProp (status r) "last_sync"); discriminate.
Qed.

(** X12. The Readable Sources card shows 0 exactly when [total_synced] is falsy,
    so it shows 0 whenever View Content is disabled; the converse fails:
    with the status not loaded the card shows 0 and View Content is
    enabled. *)
Theorem readableSources_zero :
  (forall r, readableSources r = Num 0 <->
             truthy (getProp (status r) "total_synced") = false)
  /\ (forall r, viewContentDisabled r = true -> readableSources r = Num 0)
  /\ (readableSources initialState = Num 0 /\ viewContentDisabled initialState = false).
Proof.
  assert (H1 : forall r, readableSources r = Num 0 <->
                         truthy (getProp (status r) "total_synced") = false).
  { intros r. unfold readableSources, orElse.
    destruct (truthy (getProp (status r) "total_synced")) eqn:Ht; [|tauto].
    split; [|discriminate]. intros H. rewrite H in Ht. discriminate. }
  split; [exact H1|]. split; [|split; reflexivity].
  intros r H. apply H1. unfold viewContentDisabled in H.
  destruct (getProp (status r) "total_synced"); cbn in H; try discriminate.
  apply Z.eqb_eq in H as ->. reflexivity.
Qed.

Ltac run_dispatch :=
  unfold dispatch, changeToggle, clickSyncNow, clickViewContent, Button_click,
    handleManualSync, handleToggleSync, fetchData, setItems, setLoading, setSyncing,
    setStatus;
  unfold mbind, mret, Async_bind, Async_ret, tryCatchFinally, tryCatch,
    Promise_all2, request, emit, update;
  cbn [ui log items loading syncing status filter fst snd].

(** No handler writes the [filter] cell. *)
Lemma dispatch_filter (ev : UiEvent) (net : Network) (w : World) :
  filter (ui (snd (dispatch ev net w))) = filter (ui w).
Proof.
  destruct ev as [|i| |]; run_dispatch.
  - destruct (workspaceRes net), (statusRes net); reflexivity.
  - destruct (itemsCard (ui w)) as [| |rows]; try reflexivity.
    destruct (rows !! i) as [item|]; [|reflexivity].
    destruct (toggleRes net _ _ _); reflexivity.
  - destruct (syncNowDisabled (ui w)); [reflexivity|].
    destruct (syncRes net); cbn [ui log filter];
      destruct (workspaceRes net), (statusRes net); reflexivity.
  - destruct (viewContentDisabled (ui w)); reflexivity.
Qed.

Lemma runUi_filter (evs : list (UiEvent * Network)) (w : World) :
  filter (ui (runUi evs w)) = filter (ui w).
Proof.
  revert w. induction evs as [|[ev net] evs IH]; intros w; [reflexivity|].
  unfold runUi in *. cbn [fold_left fst snd]. rewrite IH. apply dispatch_filter.
Qed.

(** X13. [filteredItems] keeps the items of the type named by [filter], in
    order, and all of them for "all"; and since no handler ever writes
    [filter], in every session from the first render [filteredItems] is
    the whole list. *)
Theorem filteredItems_is_items :
  (forall r x, In x (filteredItems r) <->
               In x (items r) /\ (filter r = "all"%string \/ item_type x = filter r))
  /\ (forall r, sublist (filteredItems r) (items r))
  /\ (forall evs w, filter (ui (runUi evs w)) = filter (ui w))
  /\ (forall evs, filteredItems (ui (runUi evs initialWorld))
                  = items (ui (runUi evs initialWorld))).
Proof.
  split; [|split; [|split]].
  - intros r x. unfold filteredItems.
    destruct (String.eqb_spec (filter r) "all") as [Hall|Hall].
    + tauto.
    + rewrite filter_In, String.eqb_eq. tauto.
  - intros r. unfold filteredItems. destruct (String.eqb (filter r) "all").
    + reflexivity.
    + apply List_filter_sublist.
  - apply runUi_filter.
  - intros evs. unfold filteredItems. now rewrite runUi_filter.
Qed.

End DashboardRendering.

(* ===================================================================== *)
(** ** More on the content viewer *)
(* ===================================================================== *)

Section ViewerFacts.
Import Js JsOps JsString ContentViewer Page ContentViewerPage.





(** X15. The case of the query does not matter: two queries that spell the same
    letters give the same result, and so does a query and its lower-case
    form. *)
Theorem filteredContent_query_case (content : list ContentItem) (q q' : text) :
  equalIgnoringCase q q' = true ->
  filteredContent content q = filteredContent content q'
  /\ filteredContent content (toLowerCase q) = filteredContent content q.
Proof.
  intros H. apply (equalIgnoringCase_lowerFrom false) in H. unfold filteredContent. split.
  - apply List.filter_ext. intros item. unfold matchesQuery, toLowerCase. now rewrite H.
  - apply List.filter_ext. intros item. unfold matchesQuery. now rewrite toLowerCase_idem.
Qed.

Lemma filteredContent_query_case_witness :
  equalIgnoringCase (ofString "Notes") (ofString "nOTES") = true
  /\ filteredContent [Sample.notes; Sample.tasks] (ofString "Notes")
     = filteredContent [Sample.notes; Sample.tasks] (ofString "nOTES")
  /\ filteredContent [Sample.notes; Sample.tasks] (toLowerCase (ofString "Notes"))
     = filteredContent [Sample.notes; Sample.tasks] (ofString "Notes").
Proof.
  split; [reflexivity|].
  apply (filteredContent_query_case [Sample.notes; Sample.tasks]
           (ofString "Notes") (ofString "nOTES")).
  reflexivity.
Defined.

Lemma includes_nil (q : text) : includes [] q = true -> q = [].
Proof. destruct q; [reflexivity | discriminate]. Qed.

Lemma toLowerCase_nil (q : text) : toLowerCase q = [] -> q = [].
Proof. destruct q; [reflexivity | discriminate]. Qed.

(** X16. An entry whose title and content are both empty is listed for the
    empty query and for no other. *)
Theorem filteredContent_blank_entry (content : list ContentItem) (q : text)
    (item : ContentItem) :
  title item = [] ->
  ContentViewer.content item = [] ->
  In item (filteredContent content q) <-> In item content /\ q = [].
Proof.
  intros Ht Hc. unfold filteredContent. rewrite filter_In. unfold matchesQuery.
  rewrite Ht, Hc. cbn [toLowerCase lowerFrom]. rewrite orb_diag. split.
  - intros [Hin H]. split; [exact Hin|]. now apply toLowerCase_nil, includes_nil.
  - intros [Hin ->]. split; [exact Hin | reflexivity].
Qed.

Lemma filteredContent_blank_entry_witness :
  title SampleMore.blank = []
  /\ ContentViewer.content SampleMore.blank = []
  /\ (In SampleMore.blank (filteredContent [Sample.notes; SampleMore.blank] (ofString "n"))
      <-> In SampleMore.blank [Sample.notes; SampleMore.blank] /\ ofString "n" = []).
Proof.
  split; [reflexivity|]. split; [reflexivity|].
  exact (filteredContent_blank_entry [Sample.notes; SampleMore.blank] (ofString "n")
           SampleMore.blank eq_refl eq_refl).
Defined.

Ltac run_prog :=
  unfold fetchContent, setContent, ContentViewerPage.setLoading, Page.tryCatchFinally,
    request, emit, update;
  unfold mbind, mret, Prog_bind, Prog_ret;
  cbn [fst snd].

(** X17. When the content request fails, [fetchContent] tells the user nothing:
    it logs to the console, clears [loading] and keeps the content, the
    query and the selection; a viewer that had no content then shows
    "No synced content yet", as for an empty cache. *)
Theorem fetchContent_rejected (e : string) (w : World) (l : list Effect) :
  exists s',
    fetchContent (inl e) w l
    = (inr tt, (s', snd w),
       (l ++ [HttpGet "/notion/content"; ConsoleError "Error fetching content:"])%list)
    /\ loading s' = false
    /\ st_content s' = st_content (fst w)
    /\ searchQuery s' = searchQuery (fst w)
    /\ selectedItem s' = selectedItem (fst w)
    /\ contentOf (s', snd w) = contentOf w
    /\ (contentOf w = [] -> body (s', snd w) = NoSyncedContent).
Proof.
  run_prog. rewrite <- ?List.app_assoc. cbn [app].
  eexists. split; [reflexivity|]. cbn [loading st_content searchQuery selectedItem].
  repeat split. intros H. unfold body, contentOf in *. cbn [fst snd loading st_content].
  now rewrite H.
Qed.

(** X18. When the content request succeeds, [fetchContent] installs the answer
    as the content without touching the arrays already in the store, keeps
    the query and the selection and clears [loading]: the page shows
    "No synced content yet" for an empty answer and otherwise the answer
    filtered by the current query. *)
Theorem fetchContent_resolved (data : list ContentItem) (w : World) (l : list Effect) :
  exists w',
    fetchContent (inr data) w l = (inr tt, w', (l ++ [HttpGet "/notion/content"])%list)
    /\ contentOf w' = data
    /\ loading (fst w') = false
    /\ searchQuery (fst w') = searchQuery (fst w)
    /\ selectedItem (fst w') = selectedItem (fst w)
    /\ (wf (snd w) ->
        wf (snd w')
        /\ forall l0, is_Some (cells (snd w) !! l0) ->
                      cells (snd w') !! l0 = cells (snd w) !! l0)
    /\ body w' = match data with
                 | [] => NoSyncedContent
                 | _ :: _ => ContentGrid (filteredContent data (searchQuery (fst w)))
                                         (detail w)
                 end.
Proof.
  run_prog. unfold alloc. cbn [fst snd loading searchQuery selectedItem st_content].
  eexists. split; [reflexivity|].
  cbn [fst snd loading searchQuery selectedItem].
  assert (Hc : contentOf
                 ({| st_content := next (snd w); loading := false;
                     searchQuery := searchQuery (fst w);
                     selectedItem := selectedItem (fst w) |},
                  {| cells := <[next (snd w) := data]> (cells (snd w));
                     next := S (next (snd w)) |}) = data).
  { unfold contentOf. cbn [fst snd st_content cells]. now rewrite lookup_insert_eq. }
  split; [exact Hc|]. repeat split.
  - now apply (alloc_wf data (snd w)).
  - intros l0 Hl0. now apply (alloc_frame data (snd w)).
  - unfold body. rewrite Hc. cbn [fst loading searchQuery].
    destruct data; reflexivity.
Qed.

End ViewerFacts.

(* ===================================================================== *)
(** ** The routes and the setup form *)
(* ===================================================================== *)

Section AppFacts.
Import Js JsOps Page App.

(** X19. The route guard.  One redirect always settles the screen; the dashboard
    and the content viewer are on screen only with a truthy [hasKey] and
    once the key check is over; without a key every declared path ends on
    the setup page, and with a key the root path ends on the dashboard. *)
Theorem routes_guard (s : State) (p : Path) (n : nat) :
  settle (S n) s p = settle 1 s p
  /\ (forall p', settle 1 s p <> NavigateTo p')
  /\ (settle n s p = DashboardPage \/ settle n s p = ContentViewerPage ->
      truthy (hasKey s) = true /\ loading s = false)
  /\ (loading s = false -> truthy (hasKey s) = false -> p <> OtherPath ->
      settle 1 s p = SetupPage)
  /\ (loading s = false -> truthy (hasKey s) = true ->
      settle 1 s Root = DashboardPage).
Proof.
  destruct s as [k lo]. cbn [loading hasKey].
  split; [|split; [|split; [|split]]].
  - destruct lo, p, n; cbn [settle render routes loading hasKey];
      destruct (truthy k) eqn:Hk; cbn [settle render routes loading hasKey];
      rewrite ?Hk; reflexivity.
  - intros p'. destruct lo, p; cbn [settle render routes loading hasKey];
      destruct (truthy k) eqn:Hk; cbn [settle render routes loading hasKey];
      rewrite ?Hk; discriminate.
  - destruct lo, p, n as [|n]; cbn [settle render routes loading hasKey];
      destruct (truthy k) eqn:Hk; try destruct n;
      cbn [settle render routes loading hasKey]; rewrite ?Hk;
      intros [H|H]; try discriminate H; split; reflexivity.
  - intros -> Hk Hp. destruct p; cbn [settle render routes loading hasKey];
      rewrite ?Hk; cbn [settle render routes loading hasKey]; rewrite ?Hk;
      try reflexivity; contradiction.
  - intros -> Hk. cbn [settle render routes loading hasKey]. rewrite Hk.
    cbn [settle render routes loading hasKey]. now rewrite Hk.
Qed.

Ltac run_app :=
  unfold checkStatus, onSetupComplete, setHasKey, App.setLoading, Page.tryCatchFinally,
    request, emit, update;
  unfold mbind, mret, Prog_bind, Prog_ret;
  cbn [fst snd hasKey loading].

(** X20. [checkStatus] never rejects and always ends the loading screen.  An
    answer sets [hasKey] to its [has_key] property, [undefined] when the
    property is missing; a failure is only logged and keeps [hasKey], so
    that after a failed check on a fresh page every declared path shows the
    setup page, whether or not a key is stored. *)
Theorem checkStatus_outcomes (res : string + object) (s : State) (l : list Effect) :
  exists s',
    checkStatus res s l
    = (inr tt, s',
       (l ++ HttpGet "/notion/status"
          :: match res with
             | inl _ => [ConsoleError "Error checking status:"]
             | inr _ => []
             end)%list)
    /\ loading s' = false
    /\ hasKey s' = match res with
                   | inl _ => hasKey s
                   | inr response => getProp response "has_key"
                   end
    /\ (truthy (hasKey s') = false ->
        forall p, p <> OtherPath -> settle 1 s' p = SetupPage).
Proof.
  run_app. destruct res as [e|response]; cbn [fst snd hasKey loading];
    rewrite <- ?List.app_assoc; cbn [app];
    (eexists; split; [reflexivity|]); cbn [hasKey loading];
    (split; [reflexivity|]); (split; [reflexivity|]);
    intros Hk p Hp; unfold settle, render, routes; cbn [loading hasKey];
    rewrite Hk; destruct p; try reflexivity; contradiction.
Qed.

(** X21. Once the setup form reports completion, [hasKey] is [true]: after the
    key check, the root path and the two guarded paths show their pages. *)
Theorem onSetupComplete_opens (s : State) (l : list Effect) :
  exists s',
    onSetupComplete s l = (inr tt, s', l)
    /\ loading s' = loading s
    /\ (loading s = false ->
        settle 1 s' Root = DashboardPage
        /\ settle 1 s' DashboardPath = DashboardPage
        /\ settle 1 s' ContentPath = ContentViewerPage).
Proof.
  run_app. eexists. split; [reflexivity|]. cbn [loading]. split; [reflexivity|].
  intros H. unfold settle, render, routes. cbn [loading hasKey truthy]. now rewrite H.
Qed.

End AppFacts.

Section SetupFacts.
Import Js JsOps Page Setup.

Ltac run_setup :=
  unfold handleSubmit, Setup.setLoading, setError, setSuccess,
    Page.tryCatchFinally, request, emit, update;
  unfold mbind, mret, Prog_bind, Prog_ret;
  cbn [fst snd apiKey loading error success].

(** X22. A submit never rejects, sends the key typed in the form and ends with
    [loading] cleared, the key field untouched and exactly one of the two
    alerts on screen: on success the success alert, with the completion
    callback scheduled after 1500 ms; on failure the error alert, never
    empty, showing the [detail] of the answer if there is a truthy one and
    the stock message otherwise, and with nothing scheduled. *)
Theorem handleSubmit_outcomes (r : State) (res : AxiosError + unit) (s : State)
    (l : list Effect) :
  exists s' effs,
    handleSubmit r res s l
    = (inr tt, s',
       (l ++ PreventDefault
          :: HttpPost "/notion/save-key" [("api_key", Str (apiKey r))] :: effs)%list)
    /\ loading s' = false
    /\ apiKey s' = apiKey s
    /\ xorb (errorAlert s') (successAlert s') = true
    /\ match res with
       | inr _ =>
           success s' = true /\ error s' = Str ""
           /\ effs = [SetTimeout "onSetupComplete" 1500]
       | inl err =>
           success s' = false /\ effs = []
           /\ error s' = (if truthy (detail err) then detail err
                          else Str "Failed to save API key. Please check and try again.")
       end.
Proof.
  run_setup. destruct res as [err|[]]; cbn [fst snd apiKey loading error success];
    rewrite <- ?List.app_assoc; cbn [app];
    eexists _, _; (split; [reflexivity|]); cbn [apiKey loading error success];
    (split; [reflexivity|]); (split; [reflexivity|]);
    unfold errorAlert, successAlert, orElse; cbn [error success].
  - destruct (truthy (detail err)) eqn:Hd; [rewrite Hd|]; repeat split.
  - repeat split.
Qed.

End SetupFacts.
